(** * KotlinDSL integration harness: retrying HTTP client and condition poller

    A shallow embedding of [config/settings.py], [utils/teamcity_client.py],
    [utils/test_helpers.py] and of the polling predicates of
    [tests/test_dsl_import.py], with the properties of the retry loop, the
    pollers, the authentication mode and the request payloads.

    Python code that talks to the network and to the clock is written in a
    state-and-exception monad over a [world]: the clock, the log of the HTTP
    requests sent and the log of the sleeps.  What the remote server answers,
    how long a request takes and by how much a sleep overshoots is given by
    an environment [env], over which every theorem quantifies.  Times are
    integers, in ticks of the clock; timeouts and intervals are in the same
    unit.  Logging and printing leave the world as it is and are left
    out.  The two [while] loops take a bound on their rounds and report the
    steps they performed, so that order and number of evaluations can be
    stated. *)

From Stdlib Require Import ZArith String List Bool Lia DecimalString.
Import ListNotations.
Local Open Scope string_scope.
Local Open Scope list_scope.
Local Open Scope Z_scope.
Set Warnings "-register-all".

Notation "s +++ t" := (String.append s t) (at level 60, right associativity).

(** ** Python values, exceptions *)

(** Decoded JSON documents; [JNull] is Python's [None], [JObj] a [dict] in
    insertion order with distinct keys. *)
Inductive json : Type :=
| JNull
| JBool (b : bool)
| JNum (z : Z)
| JStr (s : string)
| JArr (items : list json)
| JObj (fields : list (string * json)).

(** The exception classes the code raises, catches or lets through.
    [RequestException] stands for [requests.exceptions.RequestException] and
    its subclasses (connection errors, timeouts of the transport, and the
    [HTTPError] of [raise_for_status]); [TimeoutError] is the builtin one. *)
Inductive exn : Type :=
| RequestException (what : string)
| TimeoutError (msg : string)
| ValueError (msg : string)
| AttributeError (msg : string)
| JSONDecodeError (msg : string)
| OtherError (msg : string).

Definition is_RequestException (e : exn) : bool :=
  match e with RequestException _ => true | _ => false end.

Inductive result (A : Type) : Type :=
| Ret (a : A)
| Raise (e : exn).
Arguments Ret {A} a.
Arguments Raise {A} e.

(** An optional argument with the default of the signature. *)
Definition or_default {A : Type} (given : option A) (default : A) : A :=
  match given with Some a => a | None => default end.

(** f-string rendering of an [int]. *)
Definition str (z : Z) : string := NilZero.string_of_int (Z.to_int z).

Fixpoint assoc {V : Type} (k : string) (d : list (string * V)) : option V :=
  match d with
  | [] => None
  | (k', v) :: rest => if String.eqb k k' then Some v else assoc k rest
  end.

(** [d[k] = v] on an insertion-ordered dict. *)
Fixpoint dict_set {V : Type} (k : string) (v : V) (d : list (string * V))
  : list (string * V) :=
  match d with
  | [] => [(k, v)]
  | (k', v') :: rest =>
      if String.eqb k k' then (k, v) :: rest else (k', v') :: dict_set k v rest
  end.

(** [del d[k]], when the key is there. *)
Definition dict_remove {V : Type} (k : string) (d : list (string * V))
  : list (string * V) :=
  filter (fun kv => negb (String.eqb k (fst kv))) d.

(** [d.update(other)]. *)
Definition dict_update {V : Type} (d other : list (string * V))
  : list (string * V) :=
  fold_left (fun acc kv => dict_set (fst kv) (snd kv) acc) other d.

(** [v == s] for a Python value [v] and a string [s]. *)
Definition eq_str (v : json) (s : string) : bool :=
  match v with JStr t => String.eqb t s | _ => false end.

(** ** The world: clock, network, sleeps *)

Record request : Type := mkRequest {
  q_method : string;
  q_url : string;
  q_headers : list (string * string);
  q_auth : option (string * string);
  q_json : option json
}.

(** A received response: its status code and its body decoded as JSON
    ([None] when the body is not JSON). *)
Record response : Type := mkResponse {
  status_code : Z;
  content : option json
}.

(** [sent] and [naps] are logs, most recent first. *)
Record world : Type := mkWorld {
  now : Z;
  sent : list request;
  naps : list Z
}.

Inductive reply : Type :=
| Answer (r : response)
| Fault (e : exn).

(** What the code does not decide: the outcome of the n-th HTTP attempt
    ([respond]), the verdict of the library's [raise_for_status]
    ([status_error], [Some] for a status it rejects), the time the n-th
    attempt takes, the overshoot of the n-th sleep, the headers a fresh
    [requests.Session()] starts with, and the credentials the library
    finds by itself for a URL ([credentials_for]: the entry of [~/.netrc]
    for the host, else the [user:password] written in the URL). *)
Record env : Type := mkEnv {
  respond : nat -> request -> reply;
  status_error : response -> option string;
  latency : nat -> nat;
  oversleep : nat -> nat;
  lib_headers : list (string * string);
  credentials_for : string -> option (string * string)
}.

Definition M (A : Type) : Type := world -> result A * world.

Definition ret {A : Type} (a : A) : M A := fun w => (Ret a, w).

Definition raise {A : Type} (e : exn) : M A := fun w => (Raise e, w).

Definition bind {A B : Type} (m : M A) (k : A -> M B) : M B :=
  fun w =>
    match m w with
    | (Ret a, w1) => k a w1
    | (Raise e, w1) => (Raise e, w1)
    end.

Notation "x <- m ;; k" := (bind m (fun x => k))
  (at level 61, m at next level, right associativity).
Notation "m ;;; k" := (bind m (fun _ => k))
  (at level 61, right associativity).

(** [try: body / except <catches> as e: handler e]. *)
Definition try_except {A : Type} (body : M A) (catches : exn -> bool)
    (handler : exn -> M A) : M A :=
  fun w =>
    match body w with
    | (Ret a, w1) => (Ret a, w1)
    | (Raise e, w1) => if catches e then handler e w1 else (Raise e, w1)
    end.

(** A bare [except:] catches everything. *)
Definition anything (e : exn) : bool := true.

(** One step of a polling loop, in the order the loop performs them: the
    deadline test with the elapsed time it saw, a call of the polled
    operation with its outcome, a sleep. *)
Inductive step (A : Type) : Type :=
| Check (elapsed : Z)
| Eval (r : result A)
| Nap (d : Z).
Arguments Check {A} elapsed.
Arguments Eval {A} r.
Arguments Nap {A} d.

Definition is_eval {A : Type} (s : step A) : bool :=
  match s with Eval _ => true | _ => false end.

Definition is_nap {A : Type} (s : step A) : bool :=
  match s with Nap _ => true | _ => false end.

Definition evaluations {A : Type} (tr : list (step A)) : nat :=
  length (filter is_eval tr).

Definition sleeps {A : Type} (tr : list (step A)) : nat :=
  length (filter is_nap tr).

(** Least [n] with [t <= n * p], for [p > 0]. *)
Definition ceil_div (t p : Z) : Z := (t + p - 1) / p.

Section Primitives.
Variable E : env.

(** [time.time()] reads [now]; reading the clock takes no time.
    [time.sleep(d)] refuses a negative length, otherwise suspends for
    at least [d]. *)
Definition time_sleep (d : Z) : M unit :=
  fun w =>
    if d <? 0 then (Raise (ValueError "sleep length must be non-negative"), w)
    else (Ret tt,
          {| now := now w + d + Z.of_nat (oversleep E (length (naps w)));
             sent := sent w;
             naps := d :: naps w |}).

(** [response.raise_for_status()]. *)
Definition raise_for_status (r : response) : M unit :=
  match status_error E r with
  | Some what => raise (RequestException what)
  | None => ret tt
  end.

(** [response.json()]. *)
Definition response_json (r : option response) : M json :=
  match r with
  | None => raise (AttributeError "'NoneType' object has no attribute 'json'")
  | Some r =>
      match content r with
      | Some v => ret v
      | None => raise (JSONDecodeError "Expecting value")
      end
  end.

(** [v.get(key, default)]. *)
Definition py_get (v : json) (key : string) (default : json) : M json :=
  match v with
  | JObj fields =>
      ret (match assoc key fields with Some x => x | None => default end)
  | _ => raise (AttributeError "object has no attribute 'get'")
  end.
End Primitives.

(** ** More of Python's operations on values *)

(** Every class of [exn] derives from [Exception]: an [except Exception]
    handler catches all of them.  ([KeyboardInterrupt] and [SystemExit],
    which it lets through, are not raised by this code.) *)
Definition is_Exception (e : exn) : bool := true.

Definition KeyError (key : string) : exn := OtherError ("KeyError: " +++ key).

Definition TypeError (msg : string) : exn := OtherError ("TypeError: " +++ msg).

(** [v[key]] for a string key. *)
Definition py_getitem (v : json) (key : string) : M json :=
  match v with
  | JObj fields =>
      match assoc key fields with
      | Some x => ret x
      | None => raise (KeyError key)
      end
  | JArr _ => raise (TypeError "list indices must be integers or slices, not str")
  | JStr _ => raise (TypeError "string indices must be integers, not 'str'")
  | _ => raise (TypeError "object is not subscriptable")
  end.

(** [v.startswith(prefix)]: only a [str] has the method. *)
Definition py_startswith (v : json) (prefix : string) : M bool :=
  match v with
  | JStr s => ret (String.prefix prefix s)
  | _ => raise (AttributeError "object has no attribute 'startswith'")
  end.

(** [len(v)]; a string is the sequence of its characters. *)
Definition py_len (v : json) : M Z :=
  match v with
  | JArr items => ret (Z.of_nat (length items))
  | JObj fields => ret (Z.of_nat (length fields))
  | JStr s => ret (Z.of_nat (String.length s))
  | _ => raise (TypeError "object has no len()")
  end.

(** The items a [for] loop or a comprehension draws from [v]: the elements
    of a list, the keys of a dict, the characters of a string. *)
Definition py_iter (v : json) : M (list json) :=
  match v with
  | JArr items => ret items
  | JObj fields => ret (map (fun kv => JStr (fst kv)) fields)
  | JStr s =>
      ret (map (fun c => JStr (String c EmptyString)) (list_ascii_of_string s))
  | _ => raise (TypeError "object is not iterable")
  end.

(** A [str] value put into an f-string.  The f-strings of this code that
    take a decoded value only ever get one on which a [str] method has
    just succeeded; the rendering of other values is Python's [repr] and
    is not modelled. *)
Definition fstr (v : json) : M string :=
  match v with
  | JStr s => ret s
  | _ => raise (OtherError "rendering of a value that is not a str")
  end.

(** [for x in items: body x]. *)
Fixpoint for_each {A : Type} (items : list A) (body : A -> M unit) : M unit :=
  match items with
  | [] => ret tt
  | x :: rest => body x ;;; for_each rest body
  end.

(** [[x for x in items if keep x]]. *)
Fixpoint comprehension {A : Type} (items : list A) (keep : A -> M bool)
  : M (list A) :=
  match items with
  | [] => ret []
  | x :: rest =>
      k <- keep x ;;
      kept <- comprehension rest keep ;;
      ret (if k then x :: kept else kept)
  end.

(** [any(test x for x in items)]: stops at the first hit. *)
Fixpoint py_any {A : Type} (items : list A) (test : A -> M bool) : M bool :=
  match items with
  | [] => ret false
  | x :: rest =>
      hit <- test x ;;
      if hit then ret true else py_any rest test
  end.

(** ** config/settings.py *)
Module Settings.

Record t : Type := mk {
  TEAMCITY_URL : string;
  TEAMCITY_USERNAME : string;
  TEAMCITY_PASSWORD : string;
  TEAMCITY_TOKEN : string;
  GIT_REPO_URL : string;
  GIT_USERNAME : string;
  GIT_TOKEN : string;
  TEST_PROJECT_ID : string;
  TIMEOUT : Z;
  POLL_INTERVAL : Z;
  MAX_RETRIES : Z
}.

(** [os.getenv(name, default)]. *)
Definition getenv (environ : list (string * string)) (name default : string)
  : string :=
  match assoc name environ with Some v => v | None => default end.

(** The class body, evaluated against the process environment. *)
Definition load (environ : list (string * string)) : t :=
  {| TEAMCITY_URL := getenv environ "TEAMCITY_URL" "http://localhost:8111";
     TEAMCITY_USERNAME := getenv environ "TEAMCITY_USERNAME" "admin";
     TEAMCITY_PASSWORD := getenv environ "TEAMCITY_PASSWORD" "admin";
     TEAMCITY_TOKEN := getenv environ "TEAMCITY_TOKEN" "";
     GIT_REPO_URL := getenv environ "GIT_REPO_URL" "";
     GIT_USERNAME := getenv environ "GIT_USERNAME" "";
     GIT_TOKEN := getenv environ "GIT_TOKEN" "";
     TEST_PROJECT_ID := getenv environ "TEST_PROJECT_ID" "TestProject";
     TIMEOUT := 30;
     POLL_INTERVAL := 2;
     MAX_RETRIES := 3 |}.

(** The value of the [auth] property: a header dict or a pair. *)
Inductive auth_value : Type :=
| AuthHeaders (h : list (string * string))
| AuthTuple (username password : string).

Definition auth (self : t) : auth_value :=
  if String.eqb (TEAMCITY_TOKEN self) "" then
    AuthTuple (TEAMCITY_USERNAME self) (TEAMCITY_PASSWORD self)
  else
    AuthHeaders [("Authorization", "Bearer " +++ TEAMCITY_TOKEN self)].

End Settings.

(** ** utils/teamcity_client.py *)
Module TeamCityClient.

(** The part of a [requests.Session] that bears on what is sent: the
    credentials and headers the client sets, and the credentials the
    library looks up for a URL when the session has none of its own. *)
Record session_t : Type := mkSession {
  s_auth : option (string * string);
  s_headers : list (string * string);
  s_lookup : string -> option (string * string)
}.

Record t : Type := mk {
  base_url : string;
  auth : Settings.auth_value;
  session : session_t
}.

(** Keyword arguments passed on to [session.request]: only [json=] is
    ever used. *)
Definition kwargs : Type := option json.

Section WithSettings.
Variable E : env.
Variable settings : Settings.t.

(** [requests.Session()]. *)
Definition new_session : session_t :=
  {| s_auth := None; s_headers := lib_headers E;
     s_lookup := credentials_for E |}.

Definition __init__ : t :=
  let auth := Settings.auth settings in
  let session :=
    match auth with
    | Settings.AuthTuple u p =>
        {| s_auth := Some (u, p); s_headers := s_headers new_session;
           s_lookup := s_lookup new_session |}
    | Settings.AuthHeaders h =>
        {| s_auth := s_auth new_session;
           s_headers := dict_update (s_headers new_session) h;
           s_lookup := s_lookup new_session |}
    end in
  {| base_url := Settings.TEAMCITY_URL settings;
     auth := auth;
     session :=
       {| s_auth := s_auth session;
          s_headers :=
            dict_update (s_headers session)
              [("Accept", "application/json");
               ("Content-Type", "application/json")];
          s_lookup := s_lookup session |} |}.

(** The request the library prepares from a session.  Its credentials
    are those of the session or, when the session has none, those the
    library finds for the URL.  Credentials go out as
    [Authorization: Basic ...], which [q_auth] stands for, and take the
    place of any [Authorization] header of the session. *)
Definition prepare (s : session_t) (method url : string) (kw : kwargs)
  : request :=
  let credentials :=
    match s_auth s with
    | Some own => Some own
    | None => s_lookup s url
    end in
  {| q_method := method;
     q_url := url;
     q_headers :=
       match credentials with
       | Some _ => dict_remove "Authorization" (s_headers s)
       | None => s_headers s
       end;
     q_auth := credentials;
     q_json := kw |}.

(** [session.request(method, url, **kwargs)]: the prepared request is the
    next attempt the server sees. *)
Definition session_request (s : session_t) (method url : string)
    (kw : kwargs) : M response :=
  fun w =>
    let q := prepare s method url kw in
    let n := length (sent w) in
    let w1 := {| now := now w + Z.of_nat (latency E n);
                 sent := q :: sent w;
                 naps := naps w |} in
    match respond E n q with
    | Answer r => (Ret r, w1)
    | Fault e => (Raise e, w1)
    end.

(** [range(n)]. *)
Definition range (n : Z) : list Z := map Z.of_nat (seq 0 (Z.to_nat n)).

(** The body of the [for attempt in ...] loop of [_make_request], over
    the attempt numbers still to come.  Falling off the loop returns
    [None]. *)
Fixpoint attempts (self : t) (method url : string) (kw : kwargs)
    (todo : list Z) : M (option response) :=
  match todo with
  | [] => ret None
  | attempt :: todo' =>
      try_except
        (response <- session_request (session self) method url kw ;;
         raise_for_status E response ;;;
         ret (Some response))
        is_RequestException
        (fun e =>
           if attempt =? Settings.MAX_RETRIES settings - 1 then raise e
           else
             time_sleep E (Settings.POLL_INTERVAL settings) ;;;
             attempts self method url kw todo')
  end.

Definition _make_request (self : t) (method endpoint : string)
    (kw : kwargs) : M (option response) :=
  let url := base_url self +++ "/app/rest" +++ endpoint in
  attempts self method url kw (range (Settings.MAX_RETRIES settings)).

Definition get_projects (self : t) : M json :=
  response <- _make_request self "GET" "/projects" None ;;
  body <- response_json response ;;
  py_get body "project" (JArr []).

Definition get_project (self : t) (project_id : string) : M json :=
  response <- _make_request self "GET" ("/projects/" +++ project_id) None ;;
  response_json response.

Definition create_project (self : t) (project_data : json) : M json :=
  response <- _make_request self "POST" "/projects" (Some project_data) ;;
  response_json response.

Definition delete_project (self : t) (project_id : string) : M bool :=
  try_except
    (_make_request self "DELETE" ("/projects/" +++ project_id) None ;;;
     ret true)
    is_RequestException
    (fun _ => ret false).

Definition get_versioned_settings (self : t) (project_id : string)
  : M json :=
  response <- _make_request self "GET"
    ("/projects/id:" +++ project_id +++ "/versionedSettings/status") None ;;
  response_json response.

Definition enable_versioned_settings (self : t) (project_id : string)
    (vcs_settings : json) : M json :=
  response <- _make_request self "PUT"
    ("/projects/" +++ project_id +++ "/versionedSettings/config")
    (Some vcs_settings) ;;
  response_json response.

Definition trigger_versioned_settings_sync (self : t)
    (project_id : string) : M json :=
  response <- _make_request self "POST"
    ("/projects/" +++ project_id +++ "/versionedSettings/synchronize")
    None ;;
  response_json response.

Definition get_build_configurations (self : t) (project_id : string)
  : M json :=
  response <- _make_request self "GET"
    ("/buildTypes?locator=project:" +++ project_id) None ;;
  body <- response_json response ;;
  py_get body "buildType" JNull.

(** [{'name': k, 'value': v}]. *)
Definition property_entry (kv : string * string) : json :=
  JObj [("name", JStr (fst kv)); ("value", JStr (snd kv))].

(** The [build_data] dict of [trigger_build]; [properties] is [None]
    when the argument is left out. *)
Definition build_data (build_config_id : string)
    (properties : option (list (string * string))) : list (string * json) :=
  let build_data := [("buildType", JObj [("id", JStr build_config_id)])] in
  match properties with
  | Some ((_ :: _) as items) =>
      dict_set "properties"
        (JObj [("property", JArr (map property_entry items))])
        build_data
  | _ => build_data
  end.

Definition trigger_build (self : t) (build_config_id : string)
    (properties : option (list (string * string))) : M json :=
  response <- _make_request self "POST" "/buildQueue"
    (Some (JObj (build_data build_config_id properties))) ;;
  response_json response.

Definition get_build_status (self : t) (build_id : string) : M json :=
  response <- _make_request self "GET" ("/builds/" +++ build_id) None ;;
  response_json response.

Definition terminal (state : json) : bool :=
  eq_str state "finished" || eq_str state "canceled".

(** The [while] loop of [wait_for_build_completion], with the steps it
    performs.  [None]: the loop is still running when [fuel] rounds are
    over. *)
Fixpoint wait_for_build_completion_loop (fuel : nat) (self : t)
    (build_id : string) (timeout start_time : Z) (w : world)
  : option (result json * list (step json) * world) :=
  match fuel with
  | O => None
  | S fuel' =>
      let elapsed := now w - start_time in
      if elapsed <? timeout then
        match (build_info <- get_build_status self build_id ;;
               state <- py_get build_info "state" JNull ;;
               ret (build_info, state)) w with
        | (Raise e, w1) => Some (Raise e, [Check elapsed; Eval (Raise e)], w1)
        | (Ret (build_info, state), w1) =>
            if terminal state then
              Some (Ret build_info, [Check elapsed; Eval (Ret build_info)], w1)
            else
              match (if eq_str state "running"
                     then time_sleep E (Settings.POLL_INTERVAL settings)
                     else time_sleep E (Settings.POLL_INTERVAL settings)) w1
              with
              | (Raise e, w2) =>
                  Some (Raise e, [Check elapsed; Eval (Ret build_info)], w2)
              | (Ret _, w2) =>
                  match wait_for_build_completion_loop fuel' self build_id
                          timeout start_time w2 with
                  | None => None
                  | Some (r, tr, w3) =>
                      Some (r,
                            Check elapsed :: Eval (Ret build_info)
                              :: Nap (Settings.POLL_INTERVAL settings) :: tr,
                            w3)
                  end
              end
        end
      else
        Some (Raise (TimeoutError
                       ("Build " +++ build_id +++ " did not complete within "
                        +++ str timeout +++ " seconds")),
              [Check elapsed], w)
  end.

Definition wait_for_build_completion (fuel : nat) (self : t)
    (build_id : string) (timeout : option Z) (w : world)
  : option (result json * list (step json) * world) :=
  let timeout := or_default timeout 300 in
  wait_for_build_completion_loop fuel self build_id timeout (now w) w.

Definition get_vcs_roots (self : t) (project_id : option string) : M json :=
  let endpoint :=
    match project_id with
    | None => "/vcs-roots"
    | Some id =>
        if String.eqb id "" then "/vcs-roots"
        else "/vcs-roots" +++ "?locator=project:" +++ id
    end in
  response <- _make_request self "GET" endpoint None ;;
  body <- response_json response ;;
  py_get body "vcs-root" (JArr []).

Definition create_vcs_root (self : t) (vcs_data : json) : M json :=
  response <- _make_request self "POST" "/vcs-roots" (Some vcs_data) ;;
  response_json response.

End WithSettings.
End TeamCityClient.

(** ** utils/test_helpers.py *)
Module TestHelpers.
Section WithSettings.
Variable E : env.
Variable settings : Settings.t.

(** The [while] loop of [wait_for_condition], with the steps it
    performs.  [None]: the loop is still running when [fuel] rounds are
    over. *)
Fixpoint wait_for_condition_loop (fuel : nat) (condition_func : M bool)
    (timeout poll_interval : Z) (error_message : string)
    (start_time : Z) (w : world)
  : option (result bool * list (step bool) * world) :=
  match fuel with
  | O => None
  | S fuel' =>
      let elapsed := now w - start_time in
      if elapsed <? timeout then
        match condition_func w with
        | (Raise e, w1) => Some (Raise e, [Check elapsed; Eval (Raise e)], w1)
        | (Ret true, w1) =>
            Some (Ret true, [Check elapsed; Eval (Ret true)], w1)
        | (Ret false, w1) =>
            match time_sleep E poll_interval w1 with
            | (Raise e, w2) =>
                Some (Raise e, [Check elapsed; Eval (Ret false)], w2)
            | (Ret _, w2) =>
                match wait_for_condition_loop fuel' condition_func timeout
                        poll_interval error_message start_time w2 with
                | None => None
                | Some (r, tr, w3) =>
                    Some (r,
                          Check elapsed :: Eval (Ret false)
                            :: Nap poll_interval :: tr,
                          w3)
                end
            end
        end
      else Some (Raise (TimeoutError error_message), [Check elapsed], w)
  end.

(** Arguments left out take the defaults of the signature. *)
Definition wait_for_condition (fuel : nat) (condition_func : M bool)
    (timeout poll_interval : option Z) (error_message : option string)
    (w : world) : option (result bool * list (step bool) * world) :=
  let timeout := or_default timeout (Settings.TIMEOUT settings) in
  let poll_interval :=
    or_default poll_interval (Settings.POLL_INTERVAL settings) in
  let error_message :=
    or_default error_message "Condition not met within timeout" in
  wait_for_condition_loop fuel condition_func timeout poll_interval
    error_message (now w) w.

(** [field in project_data] for each required field. *)
Definition validate_kotlin_dsl_structure (project_data : list (string * json))
  : bool :=
  let required_fields := ["id"; "name"; "versionedSettingsConfig"] in
  forallb (fun field =>
             match assoc field project_data with
             | Some _ => true
             | None => false
             end) required_fields.

Definition generate_test_project_data (project_id : string)
  : list (string * json) :=
  [("id", JStr project_id);
   ("name", JStr ("Test Project " +++ project_id));
   ("description",
    JStr "Automated test project for Kotlin DSL validation")].

Definition generate_vcs_root_data (project_id repo_url : string)
  : list (string * json) :=
  [("name", JStr (project_id +++ "_VCS"));
   ("vcsName", JStr "jetbrains.git");
   ("project", JObj [("id", JStr project_id)]);
   ("properties",
    JObj [("property",
           JArr [JObj [("name", JStr "url"); ("value", JStr repo_url)];
                 JObj [("name", JStr "branch");
                       ("value", JStr "refs/heads/main")];
                 JObj [("name", JStr "authMethod");
                       ("value", JStr "PASSWORD")];
                 JObj [("name", JStr "username");
                       ("value", JStr (Settings.GIT_USERNAME settings))];
                 JObj [("name", JStr "secure:password");
                       ("value", JStr (Settings.GIT_TOKEN settings))]])])].

Definition generate_versioned_settings_config (vcs_root_id : string)
  : list (string * json) :=
  [("format", JStr "kotlin");
   ("synchronizationMode", JStr "enabled");
   ("allowUIEditing", JBool true);
   ("storeSecureValuesOutsideVcs", JBool true);
   ("vcsRootId", JStr vcs_root_id);
   ("importDecision", JStr "importFromVCS");
   ("buildSettingsMode", JStr "useFromVCS")].

End WithSettings.
End TestHelpers.

(** ** tests/test_dsl_import.py: the polling predicates *)
Module TestDslImport.
Section WithSettings.
Variable E : env.
Variable settings : Settings.t.

(** The shape every polling predicate of the scenarios has:
    [try: <body> / except: return False]. *)
Definition guarded (body : M bool) : M bool :=
  try_except body anything (fun _ => ret false).

Definition project_ready (teamcity_client : TeamCityClient.t)
    (test_project_id : string) : M bool :=
  guarded
    (project <- TeamCityClient.get_project E settings teamcity_client
                  test_project_id ;;
     id <- py_get project "id" JNull ;;
     ret (eq_str id test_project_id)).

Definition build_configs_ready (teamcity_client : TeamCityClient.t)
    (test_project_id : string) : M bool :=
  guarded
    (build_configs <- TeamCityClient.get_build_configurations E settings
                        teamcity_client test_project_id ;;
     n <- py_len build_configs ;;
     if 0 <? n then
       configs <- py_iter build_configs ;;
       py_any configs
         (fun config =>
            name <- py_get config "name" JNull ;;
            ret (eq_str name "Build"))
     else ret false).

End WithSettings.
End TestDslImport.

(** ** tests/test_pipeline_execution.py, tests/test_synchronization.py:
       the polling predicates *)
Module TestPipelineExecution.
Section WithSettings.
Variable E : env.
Variable settings : Settings.t.

Definition build_config_exists (teamcity_client : TeamCityClient.t)
    (test_project_id : string) : M bool :=
  TestDslImport.guarded
    (build_configs <- TeamCityClient.get_build_configurations E settings
                        teamcity_client test_project_id ;;
     n <- py_len build_configs ;;
     ret (0 <? n)).

End WithSettings.
End TestPipelineExecution.

Module TestSynchronization.
Section WithSettings.
Variable E : env.
Variable settings : Settings.t.

(** [vs_info.get('enabled') is True]: only the boolean [True] is. *)
Definition sync_completed (teamcity_client : TeamCityClient.t)
    (project_id : string) : M bool :=
  TestDslImport.guarded
    (vs_info <- TeamCityClient.get_versioned_settings E settings
                  teamcity_client project_id ;;
     enabled <- py_get vs_info "enabled" JNull ;;
     ret (match enabled with JBool true => true | _ => false end)).

End WithSettings.
End TestSynchronization.

(** ** tests/conftest.py: the [cleanup_project] fixture *)
Module Conftest.
Section WithSettings.
Variable E : env.
Variable settings : Settings.t.

(** [register_project], on the list the fixture keeps. *)
Definition register_project (created_projects : list string)
    (project_id : string) : list string :=
  created_projects ++ [project_id].

(** The part of the fixture after [yield]. *)
Definition cleanup_project_teardown (teamcity_client : TeamCityClient.t)
    (created_projects : list string) : M unit :=
  for_each created_projects
    (fun project_id =>
       try_except
         (TeamCityClient.delete_project E settings teamcity_client project_id ;;;
          ret tt)
         is_Exception
         (fun _ => ret tt)).

End WithSettings.
End Conftest.

(** ** scripts/cleanup.py *)
Module Cleanup.
Section WithSettings.
Variable E : env.
Variable settings : Settings.t.

Definition cleanup_test_projects : M bool :=
  try_except
    (let client := TeamCityClient.__init__ E settings in
     projects <- TeamCityClient.get_projects E settings client ;;
     items <- py_iter projects ;;
     test_projects <-
       comprehension items
         (fun p => id <- py_getitem p "id" ;; py_startswith id "Test") ;;
     for_each test_projects
       (fun project =>
          try_except
            (id <- py_getitem project "id" ;;
             project_id <- fstr id ;;
             TeamCityClient.delete_project E settings client project_id ;;;
             py_getitem project "id" ;;;
             ret tt)
            is_Exception
            (fun _ => py_getitem project "id" ;;; ret tt)) ;;;
     ret true)
    is_Exception
    (fun _ => ret false).

(** The exit status of the script. *)
Definition main : M Z :=
  done <- cleanup_test_projects ;;
  if done then ret 0 else ret 1.

End WithSettings.
End Cleanup.

(** ** scripts/setup_environment.py *)
Module SetupEnvironment.
Section WithSettings.
Variable E : env.
Variable settings : Settings.t.

(** [requests.get(url, ...)]: a request through a session of its own,
    which has the library's headers and no credentials but those the
    library finds for the URL.  The [timeout=]
    and [verify=] arguments bear on the transport, whose outcome the
    environment gives. *)
Definition requests_get (url : string) : M response :=
  TeamCityClient.session_request E (TeamCityClient.new_session E) "GET" url
    None.

(** The [for attempt in range(60)] loop of [wait_for_teamcity], over the
    attempts still to come. *)
Fixpoint probes (todo : list Z) : M bool :=
  match todo with
  | [] => ret false
  | attempt :: todo' =>
      ready <-
        try_except
          (response <- requests_get
                         (Settings.TEAMCITY_URL settings +++ "/app/rest/server") ;;
           ret (status_code response =? 200))
          is_RequestException
          (fun _ => ret false) ;;
      if ready then ret true
      else time_sleep E 10 ;;; probes todo'
  end.

Definition wait_for_teamcity : M bool := probes (TeamCityClient.range 60).

Definition setup_admin_user : M bool :=
  try_except
    (let client := TeamCityClient.__init__ E settings in
     projects <- TeamCityClient.get_projects E settings client ;;
     py_len projects ;;;
     ret true)
    is_Exception
    (fun _ => ret false).

(** [getattr(settings, var)] for the names [verify_setup] asks for. *)
Definition getattr (var : string) : string :=
  if String.eqb var "TEAMCITY_URL" then Settings.TEAMCITY_URL settings
  else if String.eqb var "TEAMCITY_USERNAME"
       then Settings.TEAMCITY_USERNAME settings
  else Settings.TEAMCITY_PASSWORD settings.

Definition verify_setup : M bool :=
  ready <- wait_for_teamcity ;;
  if negb ready then ret false
  else
    authenticated <- setup_admin_user ;;
    if negb authenticated then ret false
    else
      let required_vars :=
        ["TEAMCITY_URL"; "TEAMCITY_USERNAME"; "TEAMCITY_PASSWORD"] in
      let missing_vars :=
        filter (fun var => String.eqb (getattr var) "") required_vars in
      match missing_vars with
      | _ :: _ => ret false
      | [] => ret true
      end.

Definition main : M Z :=
  done <- verify_setup ;;
  if done then ret 0 else ret 1.

End WithSettings.
End SetupEnvironment.

(** ** utils/git_operations.py

    The helper on a machine of its own: the directories that exist, and
    what the Git library and [tempfile] answer, given by [git_env].  File
    operations do as asked.  [create_commit], which goes through
    [os.path] and the index of the repository, is not modelled. *)
Module GitOperations.

Inductive error : Type :=
| GitCommandError (msg : string)
| PyError (e : exn).

Inductive outcome (A : Type) : Type :=
| Done (a : A)
| Failed (e : error).
Arguments Done {A} a.
Arguments Failed {A} e.

Record repo_t : Type := mkRepo { working_dir : string }.

Record t : Type := mk {
  repo_url : string;
  temp_dir : option string;
  repo : option repo_t
}.

(** [made] counts the calls of [mkdtemp], [git_calls] those of the Git
    library. *)
Record machine : Type := mkMachine {
  dirs : list string;
  made : nat;
  git_calls : nat
}.

(** The name [mkdtemp] picks at its n-th call, whether the n-th call of
    the Git library raises ([Some]) or not, and the hash it finds. *)
Record git_env : Type := mkGit {
  tmp_name : nat -> string;
  git_result : nat -> option error;
  hexsha : nat -> string
}.

Section WithSettings.
Variable G : git_env.
Variable settings : Settings.t.

(** [os.path.exists(p)]. *)
Definition path_exists (p : string) (m : machine) : bool :=
  existsb (String.eqb p) (dirs m).

(** [tempfile.mkdtemp()]. *)
Definition mkdtemp (m : machine) : string * machine :=
  let p := tmp_name G (made m) in
  (p, {| dirs := p :: dirs m; made := S (made m); git_calls := git_calls m |}).

(** [shutil.rmtree(p)]: [p] goes, and all that is below it. *)
Definition rmtree (p : string) (m : machine) : machine :=
  {| dirs := filter (fun x => negb (String.eqb x p
                                    || String.prefix (p +++ "/") x))
               (dirs m);
     made := made m;
     git_calls := git_calls m |}.

Definition called (m : machine) : machine :=
  {| dirs := dirs m; made := made m; git_calls := S (git_calls m) |}.

Definition __init__ (repo_url : option string) : t :=
  {| repo_url :=
       match repo_url with
       | Some u => if String.eqb u "" then Settings.GIT_REPO_URL settings else u
       | None => Settings.GIT_REPO_URL settings
       end;
     temp_dir := None;
     repo := None |}.

Definition not_initialized : error :=
  PyError (ValueError "Repository not initialized").

Definition clone_repo (self : t) (target_dir : option string) (m : machine)
  : outcome repo_t * t * machine :=
  let '(self1, target_dir, m1) :=
    match target_dir with
    | Some d =>
        if String.eqb d "" then
          let (p, m1) := mkdtemp m in
          ({| repo_url := repo_url self; temp_dir := Some p;
              repo := repo self |}, p, m1)
        else (self, d, m)
    | None =>
        let (p, m1) := mkdtemp m in
        ({| repo_url := repo_url self; temp_dir := Some p;
            repo := repo self |}, p, m1)
    end in
  match git_result G (git_calls m1) with
  | None =>
      let r := {| working_dir := target_dir |} in
      (Done r,
       {| repo_url := repo_url self1; temp_dir := temp_dir self1;
          repo := Some r |},
       {| dirs := if path_exists target_dir m1 then dirs m1
                  else target_dir :: dirs m1;
          made := made m1;
          git_calls := S (git_calls m1) |})
  | Some e => (Failed e, self1, called m1)
  end.

(** The [try] block, [repo.remote] and [origin.push] together, is one
    call of the library. *)
Definition push_changes (self : t) (branch : string) (m : machine)
  : outcome bool * t * machine :=
  match repo self with
  | None => (Failed not_initialized, self, m)
  | Some _ =>
      match git_result G (git_calls m) with
      | None => (Done true, self, called m)
      | Some (GitCommandError _) => (Done false, self, called m)
      | Some e => (Failed e, self, called m)
      end
  end.

Definition get_latest_commit_hash (self : t) (branch : string) (m : machine)
  : outcome string * t * machine :=
  match repo self with
  | None => (Failed not_initialized, self, m)
  | Some _ =>
      match git_result G (git_calls m) with
      | None => (Done (hexsha G (git_calls m)), self, called m)
      | Some e => (Failed e, self, called m)
      end
  end.

Definition cleanup (self : t) (m : machine) : machine :=
  match temp_dir self with
  | Some p =>
      if negb (String.eqb p "") && path_exists p m then rmtree p m else m
  | None => m
  end.

Definition __exit__ (self : t) (m : machine) : machine := cleanup self m.

End WithSettings.
End GitOperations.

(** ** Vocabulary of the statements *)

(** The request [_make_request] sends at every attempt. *)
Definition request_of (self : TeamCityClient.t) (method endpoint : string)
    (kw : TeamCityClient.kwargs) : request :=
  TeamCityClient.prepare (TeamCityClient.session self) method
    (TeamCityClient.base_url self +++ "/app/rest" +++ endpoint) kw.

(** What the [try] block of [_make_request] makes of the n-th attempt: the
    response, or the exception of the transport or of [raise_for_status]. *)
Definition attempt_outcome (E : env) (n : nat) (q : request) : result response :=
  match respond E n q with
  | Fault e => Raise e
  | Answer r =>
      match status_error E r with
      | Some what => Raise (RequestException what)
      | None => Ret r
      end
  end.

(** An attempt the retry loop counts as failed: it raised a
    [RequestException]. *)
Definition failed (o : result response) : bool :=
  match o with
  | Raise e => is_RequestException e
  | Ret _ => false
  end.

(** The world once the n-th attempt has been made, and once a sleep is over. *)
Definition after_request (E : env) (q : request) (w : world) : world :=
  {| now := now w + Z.of_nat (latency E (length (sent w)));
     sent := q :: sent w;
     naps := naps w |}.

Definition after_sleep (E : env) (d : Z) (w : world) : world :=
  {| now := now w + d + Z.of_nat (oversleep E (length (naps w)));
     sent := sent w;
     naps := d :: naps w |}.

(** [wrapper] lets a failure of [inner] through as it is: same exception,
    same world (no further request, no further sleep). *)
Definition propagates {A B : Type} (inner : M A) (wrapper : M B) : Prop :=
  forall w e w', inner w = (Raise e, w') -> wrapper w = (Raise e, w').

(** A computation that never sets the clock back. *)
Definition clock_monotone {A : Type} (m : M A) : Prop :=
  forall w, now w <= now (snd (m w)).

(** A predicate that always hands back a boolean. *)
Definition total_predicate (m : M bool) : Prop :=
  forall w, exists b, fst (m w) = Ret b.

(** One unsuccessful round of a polling loop: the polled operation, then the
    sleep; [rounds k] is the world in which the loop tests its deadline for
    the (k+1)-th time, when the k tests before found nothing. *)
Definition round {A : Type} (E : env) (op : M A) (d : Z) (w : world) : world :=
  snd (time_sleep E d (snd (op w))).

Definition rounds {A : Type} (E : env) (op : M A) (d : Z) (k : nat) (w : world)
  : world :=
  Nat.iter k (round E op d) w.

(** [build_info.get('state')] of a status payload. *)
Definition state_of (build_info : json) : json :=
  match build_info with
  | JObj fields => or_default (assoc "state" fields) JNull
  | _ => JNull
  end.

(** The server answers every attempt with an accepted response whose body
    is the JSON object [payload n], n the number of the attempt. *)
Definition status_payloads (E : env) (payload : nat -> list (string * json))
  : Prop :=
  forall n q,
    exists code,
      attempt_outcome E n q = Ret (mkResponse code (Some (JObj (payload n)))).

(** A lifecycle state that ends the build-completion wait. *)
Definition final_state (state : json) : Prop :=
  state = JStr "finished" \/ state = JStr "canceled".

(** The world one status check and one sleep of [D] later, when the check
    is the single request [q]; [world_at k] is the world after k such
    rounds, in which the wait tests its deadline for the (k+1)-th time. *)
Definition poll_round (E : env) (q : request) (D : Z) (w : world) : world :=
  after_sleep E D (after_request E q w).

Definition world_at (E : env) (q : request) (D : Z) (k : nat) (w : world)
  : world :=
  Nat.iter k (poll_round E q D) w.

(** ** Sample environments *)

(** The rule of [requests]: [raise_for_status] rejects 4xx and 5xx. *)
Definition http_error (r : response) : option string :=
  if (400 <=? status_code r) && (status_code r <? 600)
  then Some ("HTTPError " +++ str (status_code r))
  else None.

(** A server that plays a script of replies, then keeps giving [last];
    requests and sleeps take exactly their nominal time. *)
Definition scripted (script : list reply) (last : reply) : env :=
  {| respond := fun n _ => nth n script last;
     status_error := http_error;
     latency := fun _ => O;
     oversleep := fun _ => O;
     lib_headers := [("User-Agent", "python-requests");
                     ("Accept-Encoding", "gzip, deflate");
                     ("Accept", "*/*");
                     ("Connection", "keep-alive")];
     credentials_for := fun _ => None |}.

Definition ok (body : json) : reply := Answer (mkResponse 200 (Some body)).

Definition refused : reply := Fault (RequestException "Connection refused").

Definition server_error : reply := Answer (mkResponse 500 None).

(** A build that is queued, then running, then finished for good. *)
Definition build_run : env :=
  {| respond := fun n _ =>
       match n with
       | O => ok (JObj [("state", JStr "queued")])
       | S O => ok (JObj [("state", JStr "running")])
       | _ => ok (JObj [("state", JStr "finished")])
       end;
     status_error := http_error;
     latency := fun _ => O;
     oversleep := fun _ => O;
     lib_headers := [];
     credentials_for := fun _ => None |}.

Definition build_run_payload (n : nat) : list (string * json) :=
  match n with
  | O => [("state", JStr "queued")]
  | S O => [("state", JStr "running")]
  | _ => [("state", JStr "finished")]
  end.

Definition defaults : Settings.t := Settings.load [].




Definition genesis : world := {| now := 0; sent := []; naps := [] |}.

(** A condition that holds from time [t] on, and one that always holds. *)
Definition ready_from (t : Z) : M bool := fun w => (Ret (t <=? now w), w).

Definition always_true : M bool := ret true.

(** The default configuration with another retry budget and delay. *)
Definition tuned (retries delay : Z) : Settings.t :=
  {| Settings.TEAMCITY_URL := Settings.TEAMCITY_URL defaults;
     Settings.TEAMCITY_USERNAME := Settings.TEAMCITY_USERNAME defaults;
     Settings.TEAMCITY_PASSWORD := Settings.TEAMCITY_PASSWORD defaults;
     Settings.TEAMCITY_TOKEN := Settings.TEAMCITY_TOKEN defaults;
     Settings.GIT_REPO_URL := Settings.GIT_REPO_URL defaults;
     Settings.GIT_USERNAME := Settings.GIT_USERNAME defaults;
     Settings.GIT_TOKEN := Settings.GIT_TOKEN defaults;
     Settings.TEST_PROJECT_ID := Settings.TEST_PROJECT_ID defaults;
     Settings.TIMEOUT := Settings.TIMEOUT defaults;
     Settings.POLL_INTERVAL := delay;
     Settings.MAX_RETRIES := retries |}.

Definition crash : reply := Fault (OtherError "MemoryError").

(** [config.get('name')] of a listed build configuration. *)
Definition py_name (config : json) : json :=
  match config with
  | JObj fields => or_default (assoc "name" fields) JNull
  | _ => JNull
  end.

(** ** Vocabulary for the scripts *)

(** The [id] of a listed project, when the entry is a dict whose ['id'] is
    a [str]. *)
Definition id_of (p : json) : option string :=
  match p with
  | JObj fields =>
      match assoc "id" fields with
      | Some (JStr s) => Some s
      | _ => None
      end
  | _ => None
  end.


(** The world after [delete_project] has been called for each id in turn. *)
Definition after_deletions (E : env) (settings : Settings.t)
    (client : TeamCityClient.t) (ids : list string) (w : world) : world :=
  fold_left
    (fun w id => snd (TeamCityClient.delete_project E settings client id w))
    ids w.

(** The readiness probe of [wait_for_teamcity], and an attempt at it that
    leaves the script waiting: a response with a status other than 200, or
    a [RequestException]. *)
Definition probe (E : env) (settings : Settings.t) : request :=
  TeamCityClient.prepare (TeamCityClient.new_session E) "GET"
    (Settings.TEAMCITY_URL settings +++ "/app/rest/server") None.

Definition not_ready (E : env) (n : nat) (q : request) : bool :=
  match respond E n q with
  | Answer r => negb (status_code r =? 200)
  | Fault e => is_RequestException e
  end.

(** A listing with two build configurations, one of them named [Build]. *)
Definition one_build : json :=
  JObj [("buildType",
         JArr [JObj [("id", JStr "P1_Deploy"); ("name", JStr "Deploy")];
               JObj [("id", JStr "P1_Build"); ("name", JStr "Build")]])].



(** A machine with nothing on it, and a Git library that fails once, then
    works. *)
Definition bare : GitOperations.machine :=
  {| GitOperations.dirs := []; GitOperations.made := O;
     GitOperations.git_calls := O |}.

Definition flaky_git : GitOperations.git_env :=
  {| GitOperations.tmp_name :=
       fun n => "/tmp/tmp" +++ str (Z.of_nat n);
     GitOperations.git_result :=
       fun n =>
         match n with
         | O => Some (GitOperations.GitCommandError "clone failed")
         | _ => None
         end;
     GitOperations.hexsha := fun _ => "0a1b2c3" |}.

(** A server that answers a request that has a body with that body. *)
Definition echo_E : env :=
  {| respond := fun _ q =>
       match q_json q with
       | Some body => Answer (mkResponse 200 (Some body))
       | None => Answer (mkResponse 404 None)
       end;
     status_error := http_error;
     latency := fun _ => O;
     oversleep := fun _ => O;
     lib_headers := [];
     credentials_for := fun _ => None |}.

(** * Properties *)

(** ** The retry loop *)
Section Retry.
Variable E : env.
Variable settings : Settings.t.
Variable self : TeamCityClient.t.
Variables (method endpoint : string) (kw : TeamCityClient.kwargs).

Let q := request_of self method endpoint kw.
Let url := TeamCityClient.base_url self +++ "/app/rest" +++ endpoint.
Let R := Settings.MAX_RETRIES settings.
Let D := Settings.POLL_INTERVAL settings.

(** One iteration of the loop, by the outcome of its attempt. *)
Lemma attempts_cons (attempt : Z) (todo : list Z) (w : world) :
  TeamCityClient.attempts E settings self method url kw (attempt :: todo) w =
  match attempt_outcome E (length (sent w)) q with
  | Ret r => (Ret (Some r), after_request E q w)
  | Raise e =>
      if is_RequestException e then
        if attempt =? R - 1 then (Raise e, after_request E q w)
        else
          match time_sleep E D (after_request E q w) with
          | (Ret _, w2) =>
              TeamCityClient.attempts E settings self method url kw todo w2
          | (Raise e', w2) => (Raise e', w2)
          end
      else (Raise e, after_request E q w)
  end.
Proof.
  cbn [TeamCityClient.attempts].
  unfold try_except at 1, bind at 1, TeamCityClient.session_request,
    attempt_outcome, R, D.
  change (TeamCityClient.prepare (TeamCityClient.session self) method url kw)
    with q.
  change (mkWorld _ (q :: sent w) (naps w)) with (after_request E q w).
  destruct (respond E (length (sent w)) q) as [r | e]; cbn.
  - unfold bind, raise_for_status.
    destruct (status_error E r) as [what | ]; cbn; [ | reflexivity].
    destruct (attempt =? Settings.MAX_RETRIES settings - 1); [reflexivity | ].
    destruct (time_sleep E _ _) as [[[] | e'] w2]; reflexivity.
  - destruct (is_RequestException e); [ | reflexivity].
    destruct (attempt =? Settings.MAX_RETRIES settings - 1); [reflexivity | ].
    unfold bind.
    destruct (time_sleep E _ _) as [[[] | e'] w2]; reflexivity.
Qed.


End Retry.


(** ** The endpoint wrappers *)
Section Wrappers.
Variable E : env.
Variable settings : Settings.t.
Variable self : TeamCityClient.t.

Let call := TeamCityClient._make_request E settings self.

Lemma propagates_bind {A B : Type} (inner : M A) (k : A -> M B) :
  propagates inner (x <- inner ;; k x).
Proof.
  intros w e w' H. unfold bind. rewrite H. reflexivity.
Qed.

(** [delete_project] turns the outcome of its request into a boolean. *)
Lemma delete_project_outcome (project_id : string) (w : world) :
  TeamCityClient.delete_project E settings self project_id w =
  match call "DELETE" ("/projects/" +++ project_id) None w with
  | (Ret _, w') => (Ret true, w')
  | (Raise e, w') =>
      (if is_RequestException e then Ret false else Raise e, w')
  end.
Proof.
  unfold TeamCityClient.delete_project, try_except, bind, call.
  destruct (TeamCityClient._make_request _ _ _ _ _ _ w) as [[r | e] w'];
    [reflexivity | ].
  destruct (is_RequestException e); reflexivity.
Qed.

(** C5, as the code has it.  Every endpoint wrapper except
    [delete_project] lets the failure of [_make_request] through
    unchanged, without a further request or sleep; [delete_project]
    adds no retry either, but catches a [RequestException] and returns
    [False] instead (and [True] when the request succeeds). *)
Theorem wrappers_propagate_failure :
  propagates (call "GET" "/projects" None)
    (TeamCityClient.get_projects E settings self) /\
  (forall id,
      propagates (call "GET" ("/projects/" +++ id) None)
        (TeamCityClient.get_project E settings self id)) /\
  (forall data,
      propagates (call "POST" "/projects" (Some data))
        (TeamCityClient.create_project E settings self data)) /\
  (forall id,
      propagates
        (call "GET" ("/projects/id:" +++ id +++ "/versionedSettings/status")
           None)
        (TeamCityClient.get_versioned_settings E settings self id)) /\
  (forall id vcs,
      propagates
        (call "PUT" ("/projects/" +++ id +++ "/versionedSettings/config")
           (Some vcs))
        (TeamCityClient.enable_versioned_settings E settings self id vcs)) /\
  (forall id,
      propagates
        (call "POST"
           ("/projects/" +++ id +++ "/versionedSettings/synchronize") None)
        (TeamCityClient.trigger_versioned_settings_sync E settings self id)) /\
  (forall id,
      propagates (call "GET" ("/buildTypes?locator=project:" +++ id) None)
        (TeamCityClient.get_build_configurations E settings self id)) /\
  (forall id props,
      propagates
        (call "POST" "/buildQueue"
           (Some (JObj (TeamCityClient.build_data id props))))
        (TeamCityClient.trigger_build E settings self id props)) /\
  (forall id,
      propagates (call "GET" ("/builds/" +++ id) None)
        (TeamCityClient.get_build_status E settings self id)) /\
  (forall id,
      exists endpoint,
        propagates (call "GET" endpoint None)
          (TeamCityClient.get_vcs_roots E settings self id)) /\
  (forall data,
      propagates (call "POST" "/vcs-roots" (Some data))
        (TeamCityClient.create_vcs_root E settings self data)) /\
  (forall id w e w',
      call "DELETE" ("/projects/" +++ id) None w = (Raise e, w') ->
      TeamCityClient.delete_project E settings self id w =
      (if is_RequestException e then Ret false else Raise e, w')) /\
  (forall id w r w',
      call "DELETE" ("/projects/" +++ id) None w = (Ret r, w') ->
      TeamCityClient.delete_project E settings self id w = (Ret true, w')).
Proof.
  repeat match goal with
         | |- _ /\ _ => split
         | |- forall _ : string, propagates _ _ => intro
         | |- forall _ : json, propagates _ _ => intro
         | |- forall (_ : string) (_ : json), propagates _ _ => intros ? ?
         | |- forall (_ : string) (_ : option _), propagates _ _ =>
             intros ? ?
         | |- propagates _ _ => apply propagates_bind
         end.
  - intros id. eexists. apply propagates_bind.
  - intros id w e w' H. rewrite delete_project_outcome, H. reflexivity.
  - intros id w r w' H. rewrite delete_project_outcome, H. reflexivity.
Qed.
End Wrappers.

Lemma wrappers_propagate_failure_witness :
  TeamCityClient.get_project (scripted [] refused) defaults
    (TeamCityClient.__init__ (scripted [] refused) defaults) "P1" genesis
  = (Raise (RequestException "Connection refused"),
     snd (TeamCityClient._make_request (scripted [] refused) defaults
            (TeamCityClient.__init__ (scripted [] refused) defaults)
            "GET" "/projects/P1" None genesis)).
Proof.
  apply (proj1 (proj2 (wrappers_propagate_failure (scripted [] refused) defaults
                         (TeamCityClient.__init__ (scripted [] refused) defaults)))
           "P1" genesis).
  reflexivity.
Defined.

(** C5 as stated fails: against a server that refuses every connection,
    [_make_request] raises once its budget is spent, and [delete_project]
    returns [False] instead of raising. *)
Lemma delete_project_swallows_failure :
  ~ propagates
      (TeamCityClient._make_request (scripted [] refused) defaults
         (TeamCityClient.__init__ (scripted [] refused) defaults)
         "DELETE" ("/projects/" +++ "P1") None)
      (TeamCityClient.delete_project (scripted [] refused) defaults
         (TeamCityClient.__init__ (scripted [] refused) defaults) "P1").
Proof.
  intros H.
  specialize (H genesis (RequestException "Connection refused") _ eq_refl).
  vm_compute in H. discriminate H.
Qed.

(** ** What goes on the wire *)
Section Wire.
Variable E : env.
Variable settings : Settings.t.



(** Every request of the retry loop is the same one, built from the
    session. *)
Lemma attempts_sent (self : TeamCityClient.t) (method endpoint : string)
    (kw : TeamCityClient.kwargs) (todo : list Z) :
  forall w,
    exists n,
      (n <= length todo)%nat /\
      (todo <> [] -> (1 <= n)%nat) /\
      sent (snd (TeamCityClient.attempts E settings self method
                   (TeamCityClient.base_url self +++ "/app/rest" +++ endpoint)
                   kw todo w))
      = repeat (request_of self method endpoint kw) n ++ sent w.
Proof.
  induction todo as [ | attempt todo IH]; intros w.
  - exists O. cbn. repeat split; [lia | congruence].
  - rewrite attempts_cons.
    set (q := request_of self method endpoint kw).
    assert (Hone : exists n, (n <= length (attempt :: todo))%nat /\
              (attempt :: todo <> [] -> (1 <= n)%nat) /\
              sent (after_request E q w) = repeat q n ++ sent w).
    { exists 1%nat. cbn. repeat split; lia. }
    destruct (attempt_outcome E (length (sent w)) q) as [r | e];
      [exact Hone | ].
    destruct (is_RequestException e); [ | exact Hone].
    destruct (attempt =? Settings.MAX_RETRIES settings - 1); [exact Hone | ].
    unfold time_sleep.
    destruct (Settings.POLL_INTERVAL settings <? 0); [exact Hone | ].
    destruct (IH (mkWorld
                    (now (after_request E q w) + Settings.POLL_INTERVAL settings +
                     Z.of_nat (oversleep E (length (naps (after_request E q w)))))
                    (sent (after_request E q w))
                    (Settings.POLL_INTERVAL settings :: naps (after_request E q w))))
      as (n & Hn & _ & Hs).
    exists (S n). fold q in Hs. rewrite Hs. cbn [sent after_request length].
    repeat split; [lia | lia | ].
    change (q :: sent w) with (repeat q 1 ++ sent w).
    rewrite app_assoc, <- repeat_app. f_equal. f_equal. lia.
Qed.



End Wire.



Section Payloads.
Variable E : env.
Variable settings : Settings.t.
Variable self : TeamCityClient.t.

(** C9.  The payload of [trigger_build] is
    [{'buildType': {'id': <id>}}], followed by a [properties] block
    [{'property': [{'name': k, 'value': v}, ...]}] with one entry per
    parameter, in order, exactly when parameters are given and not
    empty; otherwise there is no [properties] key.  That payload is the
    JSON body of every request [trigger_build] sends, each a POST to
    [/buildQueue], and it sends one as soon as the retry budget is
    positive. *)
Theorem trigger_build_payload (build_config_id : string)
    (properties : option (list (string * string))) (w : world) :
  let entry (kv : string * string) :=
    JObj [("name", JStr (fst kv)); ("value", JStr (snd kv))] in
  let payload :=
    match properties with
    | Some (kv :: items) =>
        [("buildType", JObj [("id", JStr build_config_id)]);
         ("properties", JObj [("property", JArr (map entry (kv :: items)))])]
    | Some [] | None =>
        [("buildType", JObj [("id", JStr build_config_id)])]
    end in
  TeamCityClient.build_data build_config_id properties = payload /\
  assoc "buildType" payload = Some (JObj [("id", JStr build_config_id)]) /\
  (assoc "properties" payload <> None <->
   exists kv items, properties = Some (kv :: items)) /\
  exists n,
    (n <= Z.to_nat (Settings.MAX_RETRIES settings))%nat /\
    (n = O <-> Settings.MAX_RETRIES settings <= 0) /\
    (forall q,
        In q (sent (snd (TeamCityClient.trigger_build E settings self
                           build_config_id properties w))) <->
        In q (sent w) \/
        ((1 <= n)%nat /\
         q = request_of self "POST" "/buildQueue" (Some (JObj payload)))) /\
    q_method (request_of self "POST" "/buildQueue" (Some (JObj payload)))
      = "POST" /\
    q_url (request_of self "POST" "/buildQueue" (Some (JObj payload)))
      = TeamCityClient.base_url self +++ "/app/rest/buildQueue" /\
    q_json (request_of self "POST" "/buildQueue" (Some (JObj payload)))
      = Some (JObj payload) /\
    length (sent (snd (TeamCityClient.trigger_build E settings self
                         build_config_id properties w)))
      = (n + length (sent w))%nat.
Proof.
  intros entry payload.
  assert (Hdata : TeamCityClient.build_data build_config_id properties
                  = payload).
  { unfold payload, TeamCityClient.build_data.
    destruct properties as [[ | kv items] | ]; reflexivity. }
  split; [exact Hdata | ]. split; [ | split].
  - unfold payload. destruct properties as [[ | kv items] | ]; reflexivity.
  - unfold payload. destruct properties as [[ | kv items] | ]; cbn; split.
    + intros H; contradiction.
    + intros (kv & items & H); discriminate.
    + intros _. do 2 eexists. reflexivity.
    + intros _. discriminate.
    + intros H; contradiction.
    + intros (kv & items & H); discriminate.
  - destruct (attempts_sent E settings self "POST" "/buildQueue"
                (Some (JObj payload))
                (TeamCityClient.range (Settings.MAX_RETRIES settings)) w)
      as (n & Hn & Hpos & Hs).
    unfold TeamCityClient.range in Hn, Hpos.
    rewrite length_map, length_seq in Hn.
    assert (Hsent : sent (snd (TeamCityClient.trigger_build E settings self
                                 build_config_id properties w))
                    = repeat (request_of self "POST" "/buildQueue"
                                (Some (JObj payload))) n ++ sent w).
    { unfold TeamCityClient.trigger_build, bind. rewrite Hdata.
      unfold TeamCityClient._make_request. rewrite <- Hs.
      destruct (TeamCityClient.attempts _ _ _ _ _ _ _ w) as [[r | e] w'];
        [ | reflexivity].
      unfold response_json. destruct r as [r | ]; [ | reflexivity].
      destruct (content r); reflexivity. }
    exists n. split; [exact Hn | ]. split.
    { split; [ | lia]. intros ->.
      destruct (Z.to_nat (Settings.MAX_RETRIES settings)) eqn:HR; [lia | ].
      cbn in Hpos. specialize (Hpos ltac:(discriminate)). lia. }
    split.
    { intros q0. rewrite Hsent. rewrite in_app_iff. split.
      - intros [Hin | Hin]; [right | left; exact Hin].
        split; [destruct n; [destruct Hin | lia] | ].
        apply repeat_spec in Hin. exact Hin.
      - intros [Hin | [Hn1 ->]]; [right; exact Hin | left].
        destruct n as [ | n]; [lia | left; reflexivity]. }
    split; [reflexivity | ]. split; [reflexivity | ]. split; [reflexivity | ].
    rewrite Hsent, length_app, repeat_length. reflexivity.
Qed.
End Payloads.

(** ** Listings *)
Section Listings.
Variable E : env.
Variable settings : Settings.t.
Variable self : TeamCityClient.t.

Let call := TeamCityClient._make_request E settings self.

End Listings.


(** ** The condition poller *)
Section Poller.
Variable E : env.
Variable condition_func : M bool.
Variables (timeout poll_interval : Z) (error_message : string).
Variable start_time : Z.

Let loop (fuel : nat) (w : world) :=
  TestHelpers.wait_for_condition_loop E fuel condition_func timeout
    poll_interval error_message start_time w.

Let next := round E condition_func poll_interval.

Lemma loop_more_fuel (fuel : nat) :
  forall w x,
    loop fuel w = Some x ->
    forall fuel', (fuel <= fuel')%nat -> loop fuel' w = Some x.
Proof.
  unfold loop.
  induction fuel as [ | fuel IH]; intros w x H fuel' Hle; [discriminate | ].
  destruct fuel' as [ | fuel']; [lia | ].
  cbn [TestHelpers.wait_for_condition_loop] in *.
  destruct (now w - start_time <? timeout); [ | exact H].
  destruct (condition_func w) as [[[ | ] | e] w1]; try exact H.
  destruct (time_sleep E poll_interval w1) as [[[] | e] w2]; [ | exact H].
  destruct (TestHelpers.wait_for_condition_loop E fuel _ _ _ _ _ w2)
    as [[[r tr] w3] | ] eqn:Hrec; [ | discriminate].
  rewrite (IH _ _ Hrec fuel') by lia. exact H.
Qed.

Lemma sleep_accepted (w : world) :
  0 <= poll_interval ->
  time_sleep E poll_interval w = (Ret tt, after_sleep E poll_interval w).
Proof.
  intros HP. unfold time_sleep.
  destruct (Z.ltb_spec poll_interval 0); [lia | reflexivity].
Qed.

Lemma next_later (w : world) :
  0 <= poll_interval ->
  clock_monotone condition_func ->
  now w + poll_interval <= now (next w).
Proof.
  intros HP Hmono. unfold next, round. rewrite sleep_accepted by exact HP.
  specialize (Hmono w). cbn [snd after_sleep now]. lia.
Qed.

Lemma rounds_later (k : nat) (w : world) :
  0 <= poll_interval ->
  clock_monotone condition_func ->
  now w <= now (rounds E condition_func poll_interval k w).
Proof.
  intros HP Hmono. unfold rounds.
  induction k as [ | k IH]; [cbn; lia | rewrite Nat.iter_succ].
  pose proof (next_later (Nat.iter k (round E condition_func poll_interval) w)
                HP Hmono) as H.
  unfold next in H. lia.
Qed.

(** With a positive interval over a clock that does not run backwards,
    the loop is over within [timeout - elapsed] rounds. *)
Lemma loop_terminates (fuel : nat) :
  0 < poll_interval ->
  clock_monotone condition_func ->
  forall w,
    (Z.to_nat (timeout - (now w - start_time)) < fuel)%nat ->
    exists x, loop fuel w = Some x.
Proof.
  intros HP Hmono. unfold loop.
  induction fuel as [ | fuel IH]; intros w Hfuel; [lia | ].
  cbn [TestHelpers.wait_for_condition_loop].
  destruct (Z.ltb_spec (now w - start_time) timeout) as [Hin | Hout];
    [ | eexists; reflexivity].
  pose proof (next_later w ltac:(lia) Hmono) as Hnext.
  unfold next, round in Hnext.
  destruct (condition_func w) as [[[ | ] | e] w1];
    try (eexists; reflexivity).
  cbn [snd] in Hnext.
  rewrite sleep_accepted in * by lia. cbn [snd] in Hnext.
  destruct (IH (after_sleep E poll_interval w1) ltac:(lia))
    as [[[r tr] w3] Hrec].
  rewrite Hrec. eexists; reflexivity.
Qed.

(** Each evaluation but the first is paid for by a full interval. *)
Lemma loop_evaluations (fuel : nat) :
  0 < poll_interval ->
  clock_monotone condition_func ->
  forall w r tr w',
    loop fuel w = Some (r, tr, w') ->
    Z.of_nat (evaluations tr) * poll_interval
    <= Z.max 0 (timeout - (now w - start_time) + poll_interval - 1).
Proof.
  intros HP Hmono. unfold loop.
  induction fuel as [ | fuel IH]; intros w r tr w' H; [discriminate | ].
  cbn [TestHelpers.wait_for_condition_loop] in H.
  destruct (Z.ltb_spec (now w - start_time) timeout) as [Hin | Hout].
  - pose proof (next_later w ltac:(lia) Hmono) as Hnext.
    unfold next, round in Hnext.
    destruct (condition_func w) as [[[ | ] | e] w1].
    + inversion H; subst. unfold evaluations. cbn [filter is_eval length].
      lia.
    + cbn [snd] in Hnext. rewrite sleep_accepted in * by lia.
      cbn [snd] in Hnext.
      destruct (TestHelpers.wait_for_condition_loop E fuel _ _ _ _ _ _)
        as [[[r0 tr0] w3] | ] eqn:Hrec; [ | discriminate].
      inversion H; subst. specialize (IH _ _ _ _ Hrec).
      unfold evaluations in *. cbn [filter is_eval length].
      rewrite Nat2Z.inj_succ. lia.
    + inversion H; subst. unfold evaluations. cbn [filter is_eval length].
      lia.
  - inversion H; subst. unfold evaluations. cbn [filter is_eval length].
    lia.
Qed.
End Poller.

Section PollerVerdict.
Variable E : env.
Variable condition_func : M bool.
Variables (timeout poll_interval : Z) (error_message : string).
Variable start_time : Z.

Let loop (fuel : nat) (w : world) :=
  TestHelpers.wait_for_condition_loop E fuel condition_func timeout
    poll_interval error_message start_time w.

Let at_round (k : nat) (w : world) :=
  rounds E condition_func poll_interval k w.

(** The loop ends on the first evaluation inside the window that says
    yes, and on the deadline when no evaluation inside the window does. *)
Lemma loop_verdict (fuel : nat) :
  0 <= poll_interval ->
  clock_monotone condition_func ->
  total_predicate condition_func ->
  forall w r tr w',
    loop fuel w = Some (r, tr, w') ->
    (r = Ret true /\
     exists k, now (at_round k w) - start_time < timeout /\
               fst (condition_func (at_round k w)) = Ret true) \/
    (r = Raise (TimeoutError error_message) /\
     timeout <= now w' - start_time /\
     forall k, now (at_round k w) - start_time < timeout ->
               fst (condition_func (at_round k w)) = Ret false).
Proof.
  intros HP Hmono Htotal. unfold loop.
  induction fuel as [ | fuel IH]; intros w r tr w' H; [discriminate | ].
  cbn [TestHelpers.wait_for_condition_loop] in H.
  destruct (Z.ltb_spec (now w - start_time) timeout) as [Hin | Hout].
  - destruct (Htotal w) as [b Hb].
    destruct (condition_func w) as [[[ | ] | e] w1] eqn:Hc;
      cbn [fst] in Hb; try discriminate.
    + inversion H; subst. left. split; [reflexivity | ].
      exists O. unfold at_round, rounds. cbn. rewrite Hc. split; [lia | reflexivity].
    + rewrite sleep_accepted in H by exact HP.
      destruct (TestHelpers.wait_for_condition_loop E fuel _ _ _ _ _ _)
        as [[[r0 tr0] w3] | ] eqn:Hrec; [ | discriminate].
      inversion H; subst.
      assert (Hshift : forall k,
                 at_round (S k) w = at_round k (after_sleep E poll_interval w1)).
      { intros k. unfold at_round, rounds. rewrite Nat.iter_succ_r.
        unfold round at 2. rewrite Hc. cbn [snd].
        rewrite sleep_accepted by exact HP. reflexivity. }
      destruct (IH _ _ _ _ Hrec) as [(Hr & k & Hk & Hyes) | (Hr & Hlate & Hno)].
      * left. split; [exact Hr | ]. exists (S k). rewrite Hshift. tauto.
      * right. split; [exact Hr | ]. split; [exact Hlate | ].
        intros [ | k] Hk.
        -- unfold at_round, rounds. cbn. rewrite Hc. reflexivity.
        -- rewrite Hshift in Hk |- *. apply Hno. exact Hk.
  - inversion H; subst. right. split; [reflexivity | ]. split; [lia | ].
    intros k Hk.
    pose proof (rounds_later E condition_func poll_interval k w' HP Hmono).
    unfold at_round in Hk. lia.
Qed.

(** A predicate that always hands back a boolean leaves no raised
    evaluation in the trace. *)
Lemma loop_no_raised_evaluation (fuel : nat) :
  total_predicate condition_func ->
  forall w r tr w',
    loop fuel w = Some (r, tr, w') ->
    forall e, ~ In (Eval (Raise e)) tr.
Proof.
  intros Htotal. unfold loop.
  induction fuel as [ | fuel IH]; intros w r tr w' H e; [discriminate | ].
  cbn [TestHelpers.wait_for_condition_loop] in H.
  destruct (now w - start_time <? timeout).
  - destruct (Htotal w) as [b Hb].
    destruct (condition_func w) as [[[ | ] | e0] w1] eqn:Hc;
      cbn [fst] in Hb; try discriminate.
    + inversion H; subst. cbn. intros [F | [F | []]]; discriminate.
    + destruct (time_sleep E poll_interval w1) as [[[] | e1] w2].
      * destruct (TestHelpers.wait_for_condition_loop E fuel _ _ _ _ _ _)
          as [[[r0 tr0] w3] | ] eqn:Hrec; [ | discriminate].
        inversion H; subst. cbn.
        intros [F | [F | [F | F]]]; try discriminate.
        exact (IH _ _ _ _ Hrec e F).
      * inversion H; subst. cbn. intros [F | [F | []]]; discriminate.
  - inversion H; subst. cbn. intros [F | []]; discriminate.
Qed.

(** Whatever the predicate, a run that gets past the first deadline test
    evaluates it at once, in the world of the call. *)
Lemma loop_first_steps (fuel : nat) (w : world) r tr w' :
  now w - start_time < timeout ->
  loop fuel w = Some (r, tr, w') ->
  exists rest,
    tr = Check (now w - start_time) :: Eval (fst (condition_func w)) :: rest.
Proof.
  intros Hin. unfold loop. destruct fuel as [ | fuel]; [discriminate | ].
  cbn [TestHelpers.wait_for_condition_loop].
  destruct (Z.ltb_spec (now w - start_time) timeout) as [_ | Hout]; [ | lia].
  destruct (condition_func w) as [[[ | ] | e] w1]; cbn [fst].
  - intros H; inversion H; subst. eexists; reflexivity.
  - destruct (time_sleep E poll_interval w1) as [[[] | e1] w2].
    + destruct (TestHelpers.wait_for_condition_loop E fuel _ _ _ _ _ _)
        as [[[r0 tr0] w3] | ]; [ | discriminate].
      intros H; inversion H; subst. eexists; reflexivity.
    + intros H; inversion H; subst. eexists; reflexivity.
  - intros H; inversion H; subst. eexists; reflexivity.
Qed.
End PollerVerdict.

Lemma ceil_div_spec (t p : Z) :
  0 < p -> t <= ceil_div t p * p /\ (ceil_div t p - 1) * p < t.
Proof.
  intros Hp. unfold ceil_div.
  pose proof (Z.div_mod (t + p - 1) p ltac:(lia)) as Hdm.
  pose proof (Z.mod_pos_bound (t + p - 1) p Hp) as Hb.
  nia.
Qed.

Section WaitForCondition.
Variable E : env.
Variable settings : Settings.t.

Lemma guarded_total (body : M bool) :
  total_predicate (TestDslImport.guarded body).
Proof.
  intros w. unfold TestDslImport.guarded, try_except.
  destruct (body w) as [[b | e] w1]; cbn; eexists; reflexivity.
Qed.

Lemma guarded_clock (body : M bool) :
  clock_monotone body -> clock_monotone (TestDslImport.guarded body).
Proof.
  intros Hmono w. specialize (Hmono w).
  unfold TestDslImport.guarded, try_except.
  destruct (body w) as [[b | e] w1]; exact Hmono.
Qed.

(** C2.  Over a clock that does not run backwards, with a positive poll
    interval and a predicate that hands back booleans, [wait_for_condition]
    comes to an end; it returns [True] exactly when some evaluation that
    starts inside the timeout window says yes; otherwise it raises
    [TimeoutError] with the caller's message, or the default one, and by
    then the elapsed time has reached the timeout. *)
Theorem wait_for_condition_verdict (condition_func : M bool)
    (timeout poll_interval : option Z) (error_message : option string)
    (w : world) :
  let T := or_default timeout (Settings.TIMEOUT settings) in
  let P := or_default poll_interval (Settings.POLL_INTERVAL settings) in
  0 < P ->
  clock_monotone condition_func ->
  total_predicate condition_func ->
  forall fuel, (Z.to_nat T < fuel)%nat ->
    exists r tr w',
      TestHelpers.wait_for_condition E settings fuel condition_func timeout
        poll_interval error_message w = Some (r, tr, w') /\
      (r = Ret true <->
       exists k,
         now (rounds E condition_func P k w) - now w < T /\
         fst (condition_func (rounds E condition_func P k w)) = Ret true) /\
      (r <> Ret true ->
       r = Raise (TimeoutError
                    (or_default error_message
                       "Condition not met within timeout")) /\
       T <= now w' - now w).
Proof.
  intros T P HP Hmono Htotal fuel Hfuel.
  unfold TestHelpers.wait_for_condition. fold T P.
  destruct (loop_terminates E condition_func T P
              (or_default error_message "Condition not met within timeout")
              (now w) fuel HP Hmono w ltac:(lia)) as [[[r tr] w'] Hrun].
  exists r, tr, w'. split; [exact Hrun | ].
  destruct (loop_verdict E condition_func T P _ (now w) fuel ltac:(lia)
              Hmono Htotal w r tr w' Hrun)
    as [(Hr & Hyes) | (Hr & Hlate & Hno)].
  - split; [tauto | ]. intros Hne. contradiction.
  - split.
    + split.
      * intros Hyes. rewrite Hr in Hyes. discriminate.
      * intros (k & Hk & Hyes). rewrite (Hno k Hk) in Hyes. discriminate.
    + intros _. split; [exact Hr | exact Hlate].
Qed.

(** C3, as the code has it.  With a timeout T > 0, a run of
    [wait_for_condition] begins with the deadline test, which passes,
    and then evaluates the predicate, in the world of the call and
    before any sleep; with a predicate that is always true it returns
    [True] after that one evaluation, without a sleep; and with a
    positive poll interval over a clock that does not run backwards the
    run comes to an end and has at least one evaluation. *)
Theorem wait_for_condition_first_evaluation (condition_func : M bool)
    (timeout poll_interval : option Z) (error_message : option string)
    (w : world) :
  0 < or_default timeout (Settings.TIMEOUT settings) ->
  (forall fuel r tr w',
      TestHelpers.wait_for_condition E settings fuel condition_func timeout
        poll_interval error_message w = Some (r, tr, w') ->
      exists rest,
        tr = Check 0 :: Eval (fst (condition_func w)) :: rest) /\
  ((forall w0, fst (condition_func w0) = Ret true) ->
   forall fuel,
     TestHelpers.wait_for_condition E settings (S fuel) condition_func
       timeout poll_interval error_message w
     = Some (Ret true, [Check 0; Eval (Ret true)], snd (condition_func w))) /\
  (0 < or_default poll_interval (Settings.POLL_INTERVAL settings) ->
   clock_monotone condition_func ->
   forall fuel,
     (Z.to_nat (or_default timeout (Settings.TIMEOUT settings)) < fuel)%nat ->
     exists r tr w',
       TestHelpers.wait_for_condition E settings fuel condition_func timeout
         poll_interval error_message w = Some (r, tr, w') /\
       (1 <= evaluations tr)%nat).
Proof.
  intros HT. split; [ | split].
  - intros fuel r tr w' Hrun. unfold TestHelpers.wait_for_condition in Hrun.
    assert (Hin : now w - now w
                  < or_default timeout (Settings.TIMEOUT settings)) by lia.
    destruct (loop_first_steps E condition_func _ _ _ (now w) fuel w r tr w'
                Hin Hrun) as [rest Htr].
    exists rest. rewrite Z.sub_diag in Htr. exact Htr.
  - intros Htrue fuel. unfold TestHelpers.wait_for_condition.
    cbn [TestHelpers.wait_for_condition_loop]. rewrite Z.sub_diag.
    destruct (Z.ltb_spec 0 (or_default timeout (Settings.TIMEOUT settings)));
      [ | lia].
    specialize (Htrue w).
    destruct (condition_func w) as [[[ | ] | e] w1]; cbn [fst] in Htrue;
      try discriminate.
    reflexivity.
  - intros HP Hmono fuel Hfuel. unfold TestHelpers.wait_for_condition.
    destruct (loop_terminates E condition_func
                (or_default timeout (Settings.TIMEOUT settings))
                (or_default poll_interval (Settings.POLL_INTERVAL settings))
                (or_default error_message "Condition not met within timeout")
                (now w) fuel HP Hmono w ltac:(lia)) as [[[r tr] w'] Hrun].
    exists r, tr, w'. split; [exact Hrun | ].
    assert (Hin : now w - now w
                  < or_default timeout (Settings.TIMEOUT settings)) by lia.
    destruct (loop_first_steps E condition_func _ _ _ (now w) fuel w r tr w'
                Hin Hrun) as [rest Htr].
    rewrite Htr. unfold evaluations. cbn [filter is_eval length]. lia.
Qed.

(** C7.  With T > 0 and P > 0, over a clock that does not run backwards,
    [wait_for_condition] comes to an end whatever the predicate does, and
    has evaluated it at most ceil(T / P) + 1 times. *)
Theorem wait_for_condition_evaluations_bound (condition_func : M bool)
    (timeout poll_interval : option Z) (error_message : option string)
    (w : world) :
  let T := or_default timeout (Settings.TIMEOUT settings) in
  let P := or_default poll_interval (Settings.POLL_INTERVAL settings) in
  0 < T ->
  0 < P ->
  clock_monotone condition_func ->
  forall fuel, (Z.to_nat T < fuel)%nat ->
    exists r tr w',
      TestHelpers.wait_for_condition E settings fuel condition_func timeout
        poll_interval error_message w = Some (r, tr, w') /\
      Z.of_nat (evaluations tr) <= ceil_div T P + 1.
Proof.
  intros T P HT HP Hmono fuel Hfuel.
  unfold TestHelpers.wait_for_condition. fold T P.
  destruct (loop_terminates E condition_func T P
              (or_default error_message "Condition not met within timeout")
              (now w) fuel HP Hmono w ltac:(lia)) as [[[r tr] w'] Hrun].
  exists r, tr, w'. split; [exact Hrun | ].
  pose proof (loop_evaluations E condition_func T P _ (now w) fuel HP Hmono
                w r tr w' Hrun) as Hn.
  rewrite Z.sub_diag, Z.sub_0_r in Hn.
  rewrite Z.max_r in Hn by lia.
  assert (Z.of_nat (evaluations tr) <= ceil_div T P); [ | lia].
  unfold ceil_div. apply Z.div_le_lower_bound; lia.
Qed.
End WaitForCondition.

(** ** Predicates that catch their own failures *)
Section Clock.
Variable E : env.
Variable settings : Settings.t.

Lemma bind_clock {A B : Type} (m : M A) (k : A -> M B) :
  clock_monotone m -> (forall a, clock_monotone (k a)) ->
  clock_monotone (x <- m ;; k x).
Proof.
  intros Hm Hk w. specialize (Hm w). unfold bind.
  destruct (m w) as [[a | e] w1]; cbn [snd] in *; [ | exact Hm].
  specialize (Hk a w1). lia.
Qed.

Lemma ret_clock {A : Type} (a : A) : clock_monotone (ret a).
Proof. intros w. cbn. lia. Qed.

Lemma raise_clock {A : Type} (e : exn) : clock_monotone (@raise A e).
Proof. intros w. cbn. lia. Qed.

Lemma response_json_clock r : clock_monotone (response_json r).
Proof.
  unfold response_json. destruct r as [r | ]; [ | apply raise_clock].
  destruct (content r); [apply ret_clock | apply raise_clock].
Qed.

Lemma py_get_clock v key default : clock_monotone (py_get v key default).
Proof.
  unfold py_get. destruct v; try apply raise_clock. apply ret_clock.
Qed.

Lemma attempts_clock (self : TeamCityClient.t) (method endpoint : string)
    (kw : TeamCityClient.kwargs) (todo : list Z) :
  clock_monotone
    (TeamCityClient.attempts E settings self method
       (TeamCityClient.base_url self +++ "/app/rest" +++ endpoint) kw todo).
Proof.
  induction todo as [ | attempt todo IH]; intros w; [cbn; lia | ].
  rewrite attempts_cons.
  set (q := request_of self method endpoint kw).
  assert (Hreq : now w <= now (after_request E q w)) by (cbn; lia).
  destruct (attempt_outcome E (length (sent w)) q) as [r | e];
    [exact Hreq | ].
  destruct (is_RequestException e); [ | exact Hreq].
  destruct (attempt =? Settings.MAX_RETRIES settings - 1); [exact Hreq | ].
  unfold time_sleep.
  destruct (Z.ltb_spec (Settings.POLL_INTERVAL settings) 0) as [Hneg | Hpos];
    [exact Hreq | ].
  match goal with
  | |- _ <= now (snd (TeamCityClient.attempts _ _ _ _ _ _ _ ?w2)) =>
      specialize (IH w2); cbn [now] in IH
  end.
  cbn [snd] in *. lia.
Qed.

Lemma make_request_clock (self : TeamCityClient.t) (method endpoint : string)
    (kw : TeamCityClient.kwargs) :
  clock_monotone
    (TeamCityClient._make_request E settings self method endpoint kw).
Proof. apply attempts_clock. Qed.

Lemma get_project_clock (self : TeamCityClient.t) (id : string) :
  clock_monotone (TeamCityClient.get_project E settings self id).
Proof.
  apply bind_clock; [apply make_request_clock | ].
  intros r. apply response_json_clock.
Qed.

Lemma get_build_status_clock (self : TeamCityClient.t) (id : string) :
  clock_monotone (TeamCityClient.get_build_status E settings self id).
Proof.
  apply bind_clock; [apply make_request_clock | ].
  intros r. apply response_json_clock.
Qed.

(** The body of [project_ready] never sets the clock back. *)
Lemma project_ready_body_clock (self : TeamCityClient.t) (id : string) :
  clock_monotone
    (project <- TeamCityClient.get_project E settings self id ;;
     v <- py_get project "id" JNull ;;
     ret (eq_str v id)).
Proof.
  apply bind_clock; [apply get_project_clock | ].
  intros project. apply bind_clock; [apply py_get_clock | ].
  intros v. apply ret_clock.
Qed.

(** [wait_for_condition] has no handler of its own: what a predicate
    lets escape ends the wait. *)
Lemma unguarded_failure_ends_the_wait (condition_func : M bool)
    (timeout poll_interval : option Z) (error_message : option string)
    (w : world) e w1 fuel :
  0 < or_default timeout (Settings.TIMEOUT settings) ->
  condition_func w = (Raise e, w1) ->
  TestHelpers.wait_for_condition E settings (S fuel) condition_func timeout
    poll_interval error_message w
  = Some (Raise e, [Check 0; Eval (Raise e)], w1).
Proof.
  intros HT Hc. unfold TestHelpers.wait_for_condition.
  cbn [TestHelpers.wait_for_condition_loop]. rewrite Z.sub_diag.
  destruct (Z.ltb_spec 0 (or_default timeout (Settings.TIMEOUT settings)));
    [ | lia].
  rewrite Hc. reflexivity.
Qed.

(** C6.  A polling predicate written the way the scenarios write them,
    [try: <body> / except: return False], turns an exception raised in
    its body into "not yet": the evaluation counts as [False], nothing
    escapes into [wait_for_condition], and the wait goes on until an
    evaluation inside the window says yes or the deadline is reached. *)
Theorem predicate_failure_is_not_yet (body : M bool)
    (timeout poll_interval : option Z) (error_message : option string)
    (w : world) :
  let T := or_default timeout (Settings.TIMEOUT settings) in
  let P := or_default poll_interval (Settings.POLL_INTERVAL settings) in
  let predicate := TestDslImport.guarded body in
  0 < P ->
  clock_monotone body ->
  (forall w0 e w1,
      body w0 = (Raise e, w1) -> predicate w0 = (Ret false, w1)) /\
  forall fuel, (Z.to_nat T < fuel)%nat ->
    exists r tr w',
      TestHelpers.wait_for_condition E settings fuel predicate timeout
        poll_interval error_message w = Some (r, tr, w') /\
      (forall e, ~ In (Eval (Raise e)) tr) /\
      (r = Ret true \/
       r = Raise (TimeoutError
                    (or_default error_message
                       "Condition not met within timeout"))) /\
      (r = Ret true <->
       exists k,
         now (rounds E predicate P k w) - now w < T /\
         fst (body (rounds E predicate P k w)) = Ret true).
Proof.
  intros T P predicate HP Hmono. split.
  - intros w0 e w1 Hb. unfold predicate, TestDslImport.guarded, try_except.
    rewrite Hb. reflexivity.
  - intros fuel Hfuel.
    pose proof (guarded_total body) as Htotal.
    pose proof (guarded_clock body Hmono) as Hclock.
    fold predicate in Htotal, Hclock.
    unfold TestHelpers.wait_for_condition. fold T P.
    destruct (loop_terminates E predicate T P
                (or_default error_message "Condition not met within timeout")
                (now w) fuel HP Hclock w ltac:(lia)) as [[[r tr] w'] Hrun].
    exists r, tr, w'. split; [exact Hrun | ]. split.
    { exact (loop_no_raised_evaluation E predicate T P _ (now w) fuel Htotal
               w r tr w' Hrun). }
    assert (Hsame : forall w0,
               fst (predicate w0) = Ret true <-> fst (body w0) = Ret true).
    { intros w0. unfold predicate, TestDslImport.guarded, try_except.
      destruct (body w0) as [[b | e] w1]; cbn; [tauto | ].
      split; discriminate. }
    destruct (loop_verdict E predicate T P _ (now w) fuel ltac:(lia)
                Hclock Htotal w r tr w' Hrun)
      as [(Hr & k & Hk & Hyes) | (Hr & Hlate & Hno)].
    + split; [left; exact Hr | ]. split; [ | intros _; exact Hr].
      intros _. exists k. split; [exact Hk | ]. apply Hsame. exact Hyes.
    + split; [right; exact Hr | ]. split.
      * intros Hyes. rewrite Hr in Hyes. discriminate.
      * intros (k & Hk & Hyes). apply Hsame in Hyes.
        rewrite (Hno k Hk) in Hyes. discriminate.
Qed.
End Clock.

(** *** On concrete runs *)

Lemma ready_from_clock (t : Z) : clock_monotone (ready_from t).
Proof. intros w. cbn. lia. Qed.

Lemma ready_from_total (t : Z) : total_predicate (ready_from t).
Proof. intros w. eexists. reflexivity. Qed.

Lemma wait_for_condition_verdict_witness :
  exists r tr w',
    TestHelpers.wait_for_condition (scripted [] refused) defaults 31
      (ready_from 4) None None None genesis = Some (r, tr, w') /\
    (r = Ret true <->
     exists k,
       now (rounds (scripted [] refused) (ready_from 4) 2 k genesis) - 0 < 30 /\
       fst (ready_from 4
              (rounds (scripted [] refused) (ready_from 4) 2 k genesis))
       = Ret true) /\
    (r <> Ret true ->
     r = Raise (TimeoutError "Condition not met within timeout") /\
     30 <= now w' - 0).
Proof.
  apply (wait_for_condition_verdict (scripted [] refused) defaults
           (ready_from 4) None None None genesis).
  - reflexivity.
  - apply ready_from_clock.
  - apply ready_from_total.
  - vm_compute. lia.
Defined.

Lemma wait_for_condition_first_evaluation_witness :
  TestHelpers.wait_for_condition (scripted [] refused) defaults 1
    always_true None None None genesis
  = Some (Ret true, [Check 0; Eval (Ret true)], genesis).
Proof.
  apply (proj1 (proj2 (wait_for_condition_first_evaluation
                         (scripted [] refused) defaults always_true None None
                         None genesis eq_refl))).
  intros w0. reflexivity.
Defined.

(** C3 as stated fails: with a timeout of 0 the deadline test comes first
    and ends the call; a predicate that is always true is never evaluated
    and the call raises [TimeoutError]. *)
Lemma wait_for_condition_zero_timeout :
  TestHelpers.wait_for_condition (scripted [] refused) defaults 1
    always_true (Some 0) None None genesis
  = Some (Raise (TimeoutError "Condition not met within timeout"),
          [Check 0], genesis) /\
  evaluations (A := bool) [Check 0] = O.
Proof.
  split; reflexivity.
Qed.

Lemma wait_for_condition_evaluations_bound_witness :
  exists r tr w',
    TestHelpers.wait_for_condition (scripted [] refused) defaults 6
      (ready_from 100) (Some 5) None None genesis = Some (r, tr, w') /\
    Z.of_nat (evaluations tr) <= ceil_div 5 2 + 1.
Proof.
  apply (wait_for_condition_evaluations_bound (scripted [] refused) defaults
           (ready_from 100) (Some 5) None None genesis).
  - reflexivity.
  - reflexivity.
  - apply ready_from_clock.
  - vm_compute. lia.
Defined.

Lemma predicate_failure_is_not_yet_witness :
  exists r tr w',
    TestHelpers.wait_for_condition (scripted [] refused) defaults 31
      (TestDslImport.project_ready (scripted [] refused) defaults
         (TeamCityClient.__init__ (scripted [] refused) defaults) "P1")
      (Some 30) None None genesis = Some (r, tr, w') /\
    (forall e, ~ In (Eval (Raise e)) tr) /\
    (r = Ret true \/
     r = Raise (TimeoutError "Condition not met within timeout")).
Proof.
  destruct (proj2 (predicate_failure_is_not_yet (scripted [] refused) defaults
                     _ (Some 30) None None genesis eq_refl
                     (project_ready_body_clock (scripted [] refused) defaults
                        (TeamCityClient.__init__ (scripted [] refused) defaults)
                        "P1"))
              31%nat ltac:(vm_compute; lia))
    as (r & tr & w' & Hrun & Hquiet & Hr & _).
  exists r, tr, w'. split; [exact Hrun | ]. split; [exact Hquiet | exact Hr].
Defined.

(** ** The build-completion wait *)
Section BuildWait.
Variable E : env.
Variable settings : Settings.t.
Variable self : TeamCityClient.t.
Variable build_id : string.
Variable payload : nat -> list (string * json).

Let D := Settings.POLL_INTERVAL settings.
Let q := request_of self "GET" ("/builds/" +++ build_id) None.

Hypothesis budget : 1 <= Settings.MAX_RETRIES settings.
Hypothesis answers : status_payloads E payload.

(** A status check against such a server is one request, and yields the
    payload of that attempt. *)
Lemma status_check (w : world) :
  (build_info <- TeamCityClient.get_build_status E settings self build_id ;;
   state <- py_get build_info "state" JNull ;;
   ret (build_info, state)) w
  = (Ret (JObj (payload (length (sent w))),
          state_of (JObj (payload (length (sent w))))),
     after_request E q w).
Proof.
  unfold TeamCityClient.get_build_status, TeamCityClient._make_request,
    TeamCityClient.range.
  destruct (Z.to_nat (Settings.MAX_RETRIES settings)) as [ | m] eqn:HR;
    [lia | ].
  cbn [seq map]. unfold bind at 1 2. rewrite attempts_cons. fold q.
  destruct (answers (length (sent w)) q) as [code Hc]. rewrite Hc.
  reflexivity.
Qed.

Lemma terminal_final (state : json) :
  TeamCityClient.terminal state = true <-> final_state state.
Proof.
  unfold TeamCityClient.terminal, final_state, eq_str.
  destruct state as [ | b | z | s | items | fields];
    try (cbn; split; [discriminate | intros [H | H]; discriminate H]).
  rewrite orb_true_iff, !String.eqb_eq.
  split; intros [H | H].
  - left. rewrite H. reflexivity.
  - right. rewrite H. reflexivity.
  - left. injection H as H. exact H.
  - right. injection H as H. exact H.
Qed.

Lemma world_at_succ (k : nat) (w : world) :
  world_at E q D (S k) w = world_at E q D k (poll_round E q D w).
Proof. unfold world_at. apply Nat.iter_succ_r. Qed.

(** The steps of k rounds that find the build still going, from the
    world [w] of a wait that started at [start_time]. *)
Let going (start_time : Z) (w : world) (k : nat) : list (step json) :=
  flat_map
    (fun j =>
       [Check (now (world_at E q D j w) - start_time);
        Eval (Ret (JObj (payload (length (sent (world_at E q D j w))))));
        Nap D])
    (seq 0 k).

Lemma going_succ (start_time : Z) (w : world) (k : nat) :
  going start_time w (S k)
  = Check (now w - start_time)
      :: Eval (Ret (JObj (payload (length (sent w)))))
      :: Nap D :: going start_time (poll_round E q D w) k.
Proof.
  unfold going. cbn [seq flat_map app]. do 3 f_equal.
  rewrite <- seq_shift, flat_map_concat_map, map_map,
    <- flat_map_concat_map.
  apply flat_map_ext. intros j. rewrite world_at_succ. reflexivity.
Qed.

Lemma build_wait_runs (timeout start_time : Z) (fuel : nat) :
  0 < D ->
  forall w,
    (Z.to_nat (timeout - (now w - start_time)) < fuel)%nat ->
    exists k,
      let final := world_at E q D k w in
      let build_info := JObj (payload (length (sent final))) in
      (forall j, (j < k)%nat ->
         now (world_at E q D j w) - start_time < timeout /\
         ~ final_state
             (state_of (JObj (payload (length (sent (world_at E q D j w))))))) /\
      ((now final - start_time < timeout /\
        final_state (state_of build_info) /\
        TeamCityClient.wait_for_build_completion_loop E settings fuel self
          build_id timeout start_time w
        = Some (Ret build_info,
                going start_time w k
                  ++ [Check (now final - start_time); Eval (Ret build_info)],
                after_request E q final))
       \/
       (timeout <= now final - start_time /\
        TeamCityClient.wait_for_build_completion_loop E settings fuel self
          build_id timeout start_time w
        = Some (Raise (TimeoutError
                         ("Build " +++ build_id +++ " did not complete within "
                          +++ str timeout +++ " seconds")),
                going start_time w k ++ [Check (now final - start_time)],
                final))).
Proof.
  intros HD.
  induction fuel as [ | fuel IH]; intros w Hfuel; [lia | ].
  cbn [TeamCityClient.wait_for_build_completion_loop].
  destruct (Z.ltb_spec (now w - start_time) timeout) as [Hin | Hout].
  - rewrite status_check.
    destruct (TeamCityClient.terminal
                (state_of (JObj (payload (length (sent w)))))) eqn:Hterm.
    + exists O. cbn zeta. split; [intros j Hj; lia | ]. left.
      split; [exact Hin | ]. split; [apply terminal_final; exact Hterm | ].
      reflexivity.
    + assert (Hsleep : forall w1,
                 (if eq_str (state_of (JObj (payload (length (sent w)))))
                             "running"
                  then time_sleep E (Settings.POLL_INTERVAL settings)
                  else time_sleep E (Settings.POLL_INTERVAL settings)) w1
                 = (Ret tt, after_sleep E D w1)).
      { intros w1. destruct (eq_str _ _); apply sleep_accepted;
          unfold D in HD; lia. }
      rewrite Hsleep. fold (poll_round E q D w).
      destruct (IH (poll_round E q D w)) as (k & Hbefore & Hend).
      { unfold poll_round. cbn [after_sleep after_request now]. lia. }
      exists (S k). cbn zeta in *. rewrite !world_at_succ, going_succ.
      split.
      { intros [ | j] Hj.
        - split; [exact Hin | ].
          intros Hfinal. change (world_at E q D 0 w) with w in Hfinal.
          apply terminal_final in Hfinal. rewrite Hterm in Hfinal.
          discriminate Hfinal.
        - rewrite world_at_succ. apply Hbefore. lia. }
      destruct Hend as [(Hwin & Hfin & Hrun) | (Hlate & Hrun)].
      * left. split; [exact Hwin | ]. split; [exact Hfin | ].
        rewrite Hrun. reflexivity.
      * right. split; [exact Hlate | ]. rewrite Hrun. reflexivity.
  - exists O. cbn zeta. split; [intros j Hj; lia | ]. right.
    split; [exact Hout | reflexivity].
Qed.

(** The k-th round has seen k requests and k sleeps of [D] go by. *)
Lemma world_at_logs (k : nat) (w : world) :
  sent (world_at E q D k w) = repeat q k ++ sent w /\
  naps (world_at E q D k w) = repeat D k ++ naps w.
Proof.
  induction k as [ | k IH]; [split; reflexivity | ].
  unfold world_at in *. rewrite Nat.iter_succ.
  destruct IH as [Hs Hn].
  split; unfold poll_round at 1; cbn [after_sleep after_request sent naps].
  - rewrite Hs. reflexivity.
  - rewrite Hn. reflexivity.
Qed.
End BuildWait.

(** C4.  Against a server that answers every status request with a JSON
    object, and with a positive poll interval, [wait_for_build_completion]
    comes to an end, after k rounds for some k.  Each of the k rounds is
    one status request, inside the timeout, whose payload has a state
    other than [finished] and [canceled] (whatever it is, [running]
    included), followed by one sleep of [POLL_INTERVAL].  Then either the
    next deadline test is still inside the timeout and the next payload's
    state is [finished] or [canceled]: that payload, the first such that
    the server gave, is returned as it is, after k + 1 requests and k
    sleeps; or that deadline test finds the timeout reached, and
    [TimeoutError] with the build's message is raised, after k requests
    and k sleeps.  The payload of a check is the server's answer to the
    request of that number. *)
Theorem wait_for_build_completion_paced (E : env) (settings : Settings.t)
    (self : TeamCityClient.t) (build_id : string) (timeout : option Z)
    (payload : nat -> list (string * json)) (w : world) :
  let T := or_default timeout 300 in
  let D := Settings.POLL_INTERVAL settings in
  let q := request_of self "GET" ("/builds/" +++ build_id) None in
  let at_check k := world_at E q D k w in
  let elapsed k := now (at_check k) - now w in
  let seen k := JObj (payload (length (sent w) + k)%nat) in
  let going k :=
    flat_map (fun j => [Check (elapsed j); Eval (Ret (seen j)); Nap D])
      (seq 0 k) in
  1 <= Settings.MAX_RETRIES settings ->
  0 < D ->
  status_payloads E payload ->
  forall fuel, (Z.to_nat T < fuel)%nat ->
    exists k,
      sent (at_check k) = repeat q k ++ sent w /\
      naps (at_check k) = repeat D k ++ naps w /\
      (forall j, (j < k)%nat ->
                 elapsed j < T /\ ~ final_state (state_of (seen j))) /\
      ((elapsed k < T /\
        final_state (state_of (seen k)) /\
        TeamCityClient.wait_for_build_completion E settings fuel self build_id
          timeout w
        = Some (Ret (seen k),
                going k ++ [Check (elapsed k); Eval (Ret (seen k))],
                after_request E q (at_check k)))
       \/
       (T <= elapsed k /\
        TeamCityClient.wait_for_build_completion E settings fuel self build_id
          timeout w
        = Some (Raise (TimeoutError
                         ("Build " +++ build_id +++ " did not complete within "
                          +++ str T +++ " seconds")),
                going k ++ [Check (elapsed k)],
                at_check k))).
Proof.
  intros T D q at_check elapsed seen going HR HD Hanswers fuel Hfuel.
  unfold TeamCityClient.wait_for_build_completion. fold T.
  assert (Hlogs : forall j,
             sent (at_check j) = repeat q j ++ sent w /\
             naps (at_check j) = repeat D j ++ naps w)
    by (intros j; exact (world_at_logs E settings self build_id j w)).
  assert (Hlen : forall j, length (sent (at_check j))
                           = (length (sent w) + j)%nat).
  { intros j. rewrite (proj1 (Hlogs j)), length_app, repeat_length. lia. }
  destruct (build_wait_runs E settings self build_id payload HR Hanswers T
              (now w) fuel HD w ltac:(lia)) as (k & Hbefore & Hend).
  cbn zeta in Hbefore, Hend. fold q D in Hbefore, Hend.
  fold (at_check k) in Hend. fold (elapsed k) in Hend.
  rewrite Hlen in Hend. fold (seen k) in Hend.
  assert (Hgoing :
            flat_map
              (fun j =>
                 [Check (now (world_at E q D j w) - now w);
                  Eval (Ret (JObj (payload
                                     (length (sent (world_at E q D j w))))));
                  Nap D]) (seq 0 k)
            = going k).
  { unfold going. apply flat_map_ext. intros j.
    fold (at_check j). rewrite Hlen. reflexivity. }
  rewrite Hgoing in Hend.
  exists k.
  split; [exact (proj1 (Hlogs k)) | ].
  split; [exact (proj2 (Hlogs k)) | ].
  split.
  - intros j Hj. destruct (Hbefore j Hj) as [Hwin Hnot].
    fold (at_check j) in Hwin, Hnot. rewrite Hlen in Hnot.
    split; [exact Hwin | exact Hnot].
  - exact Hend.
Qed.

Lemma build_run_answers : status_payloads build_run build_run_payload.
Proof.
  intros n q. exists 200. destruct n as [ | [ | n]]; reflexivity.
Qed.

Lemma wait_for_build_completion_paced_witness :
  option_map (fun x => fst (fst x))
    (TeamCityClient.wait_for_build_completion build_run defaults 301
       (TeamCityClient.__init__ build_run defaults) "7" None genesis)
  = Some (Ret (JObj [("state", JStr "finished")])).
Proof.
  destruct (wait_for_build_completion_paced build_run defaults
              (TeamCityClient.__init__ build_run defaults) "7" None
              build_run_payload genesis
              ltac:(vm_compute; discriminate) eq_refl build_run_answers
              301%nat ltac:(vm_compute; lia))
    as (k & _ & _ & Hbefore & Hend).
  assert (Hk : (k <= 2)%nat).
  { destruct (Nat.le_gt_cases k 2) as [Hle | Hgt]; [exact Hle | ].
    destruct (Hbefore 2%nat Hgt) as [_ Hnot].
    exfalso. apply Hnot. left. reflexivity. }
  destruct Hend as [(_ & Hfin & Hrun) | (Hlate & _)].
  - destruct k as [ | [ | [ | k]]]; [ | | | lia].
    + destruct Hfin as [Hfin | Hfin]; discriminate Hfin.
    + destruct Hfin as [Hfin | Hfin]; discriminate Hfin.
    + rewrite Hrun. reflexivity.
  - exfalso. destruct k as [ | [ | [ | k]]]; [ | | | lia];
      vm_compute in Hlate; apply Hlate; reflexivity.
Defined.

(** The run of the specification's example: queued, running, finished. *)
Example build_run_trace :
  option_map fst
    (TeamCityClient.wait_for_build_completion build_run defaults 301
       (TeamCityClient.__init__ build_run defaults) "7" None genesis)
  = Some (Ret (JObj [("state", JStr "finished")]),
          [Check 0; Eval (Ret (JObj [("state", JStr "queued")])); Nap 2;
           Check 2; Eval (Ret (JObj [("state", JStr "running")])); Nap 2;
           Check 4; Eval (Ret (JObj [("state", JStr "finished")]))]).
Proof. vm_compute. reflexivity. Qed.

(** * Further properties *)

(** ** The retry loop at its edges *)

Lemma range_cons (n : Z) :
  1 <= n ->
  TeamCityClient.range n = 0 :: map Z.of_nat (seq 1 (Z.to_nat n - 1)).
Proof.
  intros Hn. unfold TeamCityClient.range.
  destruct (Z.to_nat n) as [ | m] eqn:Hm; [lia | ].
  cbn [seq map]. rewrite Nat.sub_succ, Nat.sub_0_r. reflexivity.
Qed.

Section RetryEdges.
Variable E : env.
Variable settings : Settings.t.
Variable self : TeamCityClient.t.
Variables (method endpoint : string) (kw : TeamCityClient.kwargs).

Let q := request_of self method endpoint kw.
Let url := TeamCityClient.base_url self +++ "/app/rest" +++ endpoint.
Let R := Settings.MAX_RETRIES settings.
Let D := Settings.POLL_INTERVAL settings.

(** X1.  An error of the transport that is not a [RequestException] is
    not retried: [_make_request] raises it after that one request,
    without a sleep. *)
Theorem make_request_other_error_not_retried (w : world) (e : exn) :
  1 <= R ->
  attempt_outcome E (length (sent w)) q = Raise e ->
  is_RequestException e = false ->
  TeamCityClient._make_request E settings self method endpoint kw w
  = (Raise e, after_request E q w).
Proof.
  intros HR He Hother. unfold TeamCityClient._make_request.
  rewrite range_cons by exact HR.
  rewrite attempts_cons. fold q. rewrite He, Hother. reflexivity.
Qed.

(** X2.  With a retry budget of 0 or less, [_make_request] sends nothing
    and returns [None]; a wrapper that decodes the response then raises
    [AttributeError], and [delete_project] reports success although no
    request was made. *)
Theorem no_budget_no_request (w : world) :
  R <= 0 ->
  TeamCityClient._make_request E settings self method endpoint kw w
  = (Ret None, w) /\
  (forall id,
      TeamCityClient.get_project E settings self id w
      = (Raise (AttributeError "'NoneType' object has no attribute 'json'"),
         w)) /\
  (forall id,
      TeamCityClient.delete_project E settings self id w = (Ret true, w)).
Proof.
  intros HR.
  assert (Hnone : forall m ep k,
             TeamCityClient._make_request E settings self m ep k w
             = (Ret None, w)).
  { intros m ep k. unfold TeamCityClient._make_request, TeamCityClient.range.
    replace (Z.to_nat (Settings.MAX_RETRIES settings)) with O
      by (unfold R in HR; lia).
    reflexivity. }
  split; [apply Hnone | ]. split; intros id.
  - unfold TeamCityClient.get_project, bind. rewrite Hnone. reflexivity.
  - unfold TeamCityClient.delete_project, try_except, bind.
    rewrite Hnone. reflexivity.
Qed.

(** X3.  With a negative delay and a budget of at least two attempts, a
    first attempt that fails ends the call with the [ValueError] of
    [time.sleep]: the request's own error is lost and nothing is
    retried. *)
Theorem negative_delay_masks_failure (w : world) :
  2 <= R ->
  D < 0 ->
  failed (attempt_outcome E (length (sent w)) q) = true ->
  TeamCityClient._make_request E settings self method endpoint kw w
  = (Raise (ValueError "sleep length must be non-negative"),
     after_request E q w).
Proof.
  intros HR HD Hfail. unfold TeamCityClient._make_request.
  rewrite range_cons by (unfold R in HR; lia).
  rewrite attempts_cons. fold q. unfold failed in Hfail.
  destruct (attempt_outcome E (length (sent w)) q) as [r | e];
    [discriminate | ].
  rewrite Hfail.
  destruct (Z.eqb_spec 0 (Settings.MAX_RETRIES settings - 1)) as [H0 | _];
    [unfold R in HR; lia | ].
  unfold time_sleep.
  destruct (Z.ltb_spec (Settings.POLL_INTERVAL settings) 0) as [_ | Hpos];
    [reflexivity | unfold D in HD; lia].
Qed.

(** Failed attempts before the last are each followed by a sleep of the
    configured delay. *)
Lemma attempts_skip_failed_naps (k : nat) :
  forall (i : nat) (w : world),
    0 <= D ->
    Z.of_nat (i + k) < R ->
    (forall j, (j < k)%nat ->
               failed (attempt_outcome E (length (sent w) + j) q) = true) ->
    exists wk,
      length (sent wk) = (length (sent w) + k)%nat /\
      naps wk = repeat D k ++ naps w /\
      now w + Z.of_nat k * D <= now wk /\
      forall m,
        TeamCityClient.attempts E settings self method url kw
          (map Z.of_nat (seq i (k + m))) w =
        TeamCityClient.attempts E settings self method url kw
          (map Z.of_nat (seq (i + k) m)) wk.
Proof.
  induction k as [ | k IH]; intros i w HD Hlt Hfail.
  - exists w. rewrite !Nat.add_0_r.
    split; [reflexivity | ]. split; [reflexivity | ].
    split; [cbn; lia | reflexivity].
  - pose proof (Hfail O ltac:(lia)) as H0. rewrite Nat.add_0_r in H0.
    destruct (IH (S i) (after_sleep E D (after_request E q w)) HD
                ltac:(lia)) as (wk & Hs & Hn & Hclock & Hrun).
    { intros j Hj. cbn [after_sleep after_request sent length].
      replace (S (length (sent w)) + j)%nat
        with (length (sent w) + S j)%nat by lia.
      apply Hfail; lia. }
    exists wk. cbn [after_sleep after_request sent naps length now] in *.
    split; [lia | ]. split.
    { rewrite Hn. change (D :: naps w) with (repeat D 1 ++ naps w).
      rewrite app_assoc, <- repeat_app. f_equal. f_equal. lia. }
    split; [lia | ].
    intros m. cbn [Nat.add seq map]. unfold url in *. rewrite attempts_cons.
    unfold failed in H0. fold q.
    destruct (attempt_outcome E (length (sent w)) q) as [r | e];
      [discriminate | ].
    rewrite H0.
    destruct (Z.eqb_spec (Z.of_nat i) (Settings.MAX_RETRIES settings - 1))
      as [Heq | _]; [unfold R in Hlt; lia | ].
    unfold time_sleep.
    destruct (Z.ltb_spec (Settings.POLL_INTERVAL settings) 0) as [Hneg | _];
      [unfold D in HD; lia | ].
    fold D. fold (after_sleep E D (after_request E q w)).
    rewrite Hrun. replace (i + S k)%nat with (S i + k)%nat by lia.
    reflexivity.
Qed.

(** X4.  When the first R-1 attempts fail, [_make_request] has slept R-1
    times, each time for the configured delay, and at least (R-1) * D has
    passed when it returns or raises; it does not sleep after the last
    attempt. *)
Theorem make_request_delays (w : world) :
  1 <= R ->
  0 <= D ->
  (forall j, (j < Z.to_nat R - 1)%nat ->
             failed (attempt_outcome E (length (sent w) + j) q) = true) ->
  let w' := snd (TeamCityClient._make_request E settings self method endpoint
                   kw w) in
  naps w' = repeat D (Z.to_nat R - 1) ++ naps w /\
  now w + (R - 1) * D <= now w'.
Proof.
  intros HR HD Hfail.
  destruct (attempts_skip_failed_naps (Z.to_nat R - 1) O w HD ltac:(lia) Hfail)
    as (wk & Hs & Hn & Hclock & Hrun).
  specialize (Hrun 1%nat).
  replace (Z.to_nat R - 1 + 1)%nat with (Z.to_nat R) in Hrun by lia.
  unfold TeamCityClient._make_request, TeamCityClient.range.
  fold url R. rewrite Hrun. cbn [seq map Nat.add].
  unfold url. rewrite attempts_cons. fold q R.
  destruct (Z.eqb_spec (Z.of_nat (Z.to_nat R - 1)) (R - 1)) as [_ | Hne];
    [ | lia].
  assert (Hend : naps (after_request E q wk) = repeat D (Z.to_nat R - 1) ++ naps w
                 /\ now w + (R - 1) * D <= now (after_request E q wk)).
  { cbn [after_request naps now]. split; [exact Hn | ].
    replace (R - 1) with (Z.of_nat (Z.to_nat R - 1)) by lia. lia. }
  destruct (attempt_outcome E (length (sent wk)) q) as [r | e];
    [exact Hend | ].
  destruct (is_RequestException e); exact Hend.
Qed.
End RetryEdges.

Lemma make_request_other_error_not_retried_witness :
  exists w',
    TeamCityClient._make_request (scripted [crash] refused) defaults
      (TeamCityClient.__init__ (scripted [crash] refused) defaults)
      "GET" "/projects" None genesis
    = (Raise (OtherError "MemoryError"), w') /\
    length (sent w') = 1%nat /\ naps w' = [].
Proof.
  eexists. split.
  - apply (make_request_other_error_not_retried (scripted [crash] refused)
             defaults
             (TeamCityClient.__init__ (scripted [crash] refused) defaults)
             "GET" "/projects" None genesis (OtherError "MemoryError")).
    + vm_compute. discriminate.
    + reflexivity.
    + reflexivity.
  - split; reflexivity.
Defined.

Lemma no_budget_no_request_witness :
  TeamCityClient.delete_project (scripted [] refused) (tuned 0 2)
    (TeamCityClient.__init__ (scripted [] refused) (tuned 0 2)) "P1" genesis
  = (Ret true, genesis).
Proof.
  apply (proj2 (proj2 (no_budget_no_request (scripted [] refused) (tuned 0 2)
                         (TeamCityClient.__init__ (scripted [] refused)
                            (tuned 0 2))
                         "GET" "/projects" None genesis
                         ltac:(vm_compute; discriminate)))).
Defined.

Lemma negative_delay_masks_failure_witness :
  fst (TeamCityClient._make_request (scripted [] refused) (tuned 3 (-1))
         (TeamCityClient.__init__ (scripted [] refused) (tuned 3 (-1)))
         "GET" "/projects" None genesis)
  = Raise (ValueError "sleep length must be non-negative").
Proof.
  rewrite (negative_delay_masks_failure (scripted [] refused) (tuned 3 (-1))
             (TeamCityClient.__init__ (scripted [] refused) (tuned 3 (-1)))
             "GET" "/projects" None genesis).
  - reflexivity.
  - vm_compute. discriminate.
  - reflexivity.
  - reflexivity.
Defined.

Lemma make_request_delays_witness :
  naps (snd (TeamCityClient._make_request (scripted [] refused) defaults
               (TeamCityClient.__init__ (scripted [] refused) defaults)
               "GET" "/projects" None genesis))
  = [2; 2] /\
  0 + (3 - 1) * 2
  <= now (snd (TeamCityClient._make_request (scripted [] refused) defaults
                 (TeamCityClient.__init__ (scripted [] refused) defaults)
                 "GET" "/projects" None genesis)).
Proof.
  apply (make_request_delays (scripted [] refused) defaults
           (TeamCityClient.__init__ (scripted [] refused) defaults)
           "GET" "/projects" None genesis).
  - vm_compute. discriminate.
  - vm_compute. discriminate.
  - intros j Hj. destruct j as [ | [ | j]]; [reflexivity | reflexivity | ].
    exfalso. revert Hj. vm_compute. lia.
Defined.

(** ** Content negotiation *)



(** ** The pollers at their edges *)
Section PollerEdges.
Variable E : env.
Variable settings : Settings.t.

(** X6.  A terminated run of [wait_for_condition] only ever sleeps for
    the poll interval, once after each evaluation but possibly the last:
    the evaluations are as many as the sleeps or one more, and one more
    when the call returns [True]. *)
Theorem wait_for_condition_sleeps (condition_func : M bool)
    (timeout poll_interval : option Z) (error_message : option string)
    (w : world) (fuel : nat) r tr w' :
  TestHelpers.wait_for_condition E settings fuel condition_func timeout
    poll_interval error_message w = Some (r, tr, w') ->
  (forall d, In (Nap d) tr ->
             d = or_default poll_interval (Settings.POLL_INTERVAL settings)) /\
  (sleeps tr <= evaluations tr <= S (sleeps tr))%nat /\
  (r = Ret true -> evaluations tr = S (sleeps tr)).
Proof.
  unfold TestHelpers.wait_for_condition.
  generalize (or_default timeout (Settings.TIMEOUT settings)) as T.
  generalize (or_default poll_interval (Settings.POLL_INTERVAL settings)) as P.
  generalize (or_default error_message "Condition not met within timeout")
    as msg.
  generalize (now w) as start.
  intros start msg P T. revert w r tr w'.
  induction fuel as [ | fuel IH]; intros w r tr w' H; [discriminate | ].
  cbn [TestHelpers.wait_for_condition_loop] in H.
  destruct (now w - start <? T).
  - destruct (condition_func w) as [[[ | ] | e] w1].
    + inversion H; subst. unfold sleeps, evaluations. cbn.
      repeat split; try lia. intros d [F | [F | []]]; discriminate.
    + destruct (time_sleep E P w1) as [[[] | e1] w2].
      * destruct (TestHelpers.wait_for_condition_loop E fuel _ _ _ _ _ _)
          as [[[r0 tr0] w3] | ] eqn:Hrec; [ | discriminate].
        inversion H; subst.
        destruct (IH _ _ _ _ Hrec) as (Hd & Hle & Hyes).
        unfold sleeps, evaluations in *.
        cbn [filter is_eval is_nap length].
        split; [ | split].
        -- intros d [F | [F | [F | F]]]; try discriminate.
           ++ inversion F. reflexivity.
           ++ apply Hd. exact F.
        -- lia.
        -- intros Hr. specialize (Hyes Hr). lia.
      * inversion H; subst. unfold sleeps, evaluations. cbn.
        repeat split; try lia; try discriminate.
        intros d [F | [F | []]]; discriminate.
    + inversion H; subst. unfold sleeps, evaluations. cbn.
      repeat split; try lia; try discriminate.
      intros d [F | [F | []]]; discriminate.
  - inversion H; subst. unfold sleeps, evaluations. cbn.
    repeat split; try lia; try discriminate.
    intros d [F | []]; discriminate.
Qed.

(** X7.  With a negative poll interval and a timeout not yet reached, a
    first evaluation that says no ends [wait_for_condition] with the
    [ValueError] of [time.sleep], not with [TimeoutError]. *)
Theorem wait_for_condition_negative_interval (condition_func : M bool)
    (timeout poll_interval : option Z) (error_message : option string)
    (w w1 : world) (fuel : nat) :
  0 < or_default timeout (Settings.TIMEOUT settings) ->
  or_default poll_interval (Settings.POLL_INTERVAL settings) < 0 ->
  condition_func w = (Ret false, w1) ->
  TestHelpers.wait_for_condition E settings (S fuel) condition_func timeout
    poll_interval error_message w
  = Some (Raise (ValueError "sleep length must be non-negative"),
          [Check 0; Eval (Ret false)], w1).
Proof.
  intros HT HP Hc. unfold TestHelpers.wait_for_condition.
  cbn [TestHelpers.wait_for_condition_loop]. rewrite Z.sub_diag.
  destruct (Z.ltb_spec 0 (or_default timeout (Settings.TIMEOUT settings)));
    [ | lia].
  rewrite Hc. unfold time_sleep.
  destruct (Z.ltb_spec
              (or_default poll_interval (Settings.POLL_INTERVAL settings)) 0);
    [reflexivity | lia].
Qed.

(** X8.  [wait_for_build_completion] has no handler around its status
    check: with a timeout not yet reached, an error of the first check
    (the retries exhausted, say) ends the wait with that error, and a
    payload that is not a JSON object ends it with [AttributeError]. *)
Theorem build_wait_check_failure (self : TeamCityClient.t)
    (build_id : string) (timeout : option Z) (w w1 : world) (fuel : nat) :
  0 < or_default timeout 300 ->
  (forall e,
      TeamCityClient.get_build_status E settings self build_id w
        = (Raise e, w1) ->
      TeamCityClient.wait_for_build_completion E settings (S fuel) self
        build_id timeout w
      = Some (Raise e, [Check 0; Eval (Raise e)], w1)) /\
  (forall payload,
      TeamCityClient.get_build_status E settings self build_id w
        = (Ret payload, w1) ->
      (forall fields, payload <> JObj fields) ->
      exists e,
        e = AttributeError "object has no attribute 'get'" /\
        TeamCityClient.wait_for_build_completion E settings (S fuel) self
          build_id timeout w
        = Some (Raise e, [Check 0; Eval (Raise e)], w1)).
Proof.
  intros HT. unfold TeamCityClient.wait_for_build_completion.
  cbn [TeamCityClient.wait_for_build_completion_loop]. rewrite Z.sub_diag.
  destruct (Z.ltb_spec 0 (or_default timeout 300)); [ | lia].
  split.
  - intros e He. unfold bind at 1. rewrite He. reflexivity.
  - intros payload Hp Hshape. eexists. split; [reflexivity | ].
    unfold bind at 1. rewrite Hp.
    destruct payload; try reflexivity.
    exfalso. eapply Hshape. reflexivity.
Qed.
End PollerEdges.

Lemma wait_for_condition_sleeps_witness :
  exists r tr w',
    TestHelpers.wait_for_condition (scripted [] refused) defaults 31
      (ready_from 4) None None None genesis = Some (r, tr, w') /\
    (sleeps tr <= evaluations tr <= S (sleeps tr))%nat /\
    (r = Ret true -> evaluations tr = S (sleeps tr)).
Proof.
  do 3 eexists. split; [vm_compute; reflexivity | ].
  refine (proj2 (wait_for_condition_sleeps (scripted [] refused) defaults
                   (ready_from 4) None None None genesis 31 _ _ _ _)).
  vm_compute. reflexivity.
Defined.

Lemma wait_for_condition_negative_interval_witness :
  TestHelpers.wait_for_condition (scripted [] refused) defaults 1
    (ready_from 4) None (Some (-1)) None genesis
  = Some (Raise (ValueError "sleep length must be non-negative"),
          [Check 0; Eval (Ret false)], genesis).
Proof.
  apply (wait_for_condition_negative_interval (scripted [] refused) defaults
           (ready_from 4) None (Some (-1)) None genesis genesis O);
    reflexivity.
Defined.

Lemma build_wait_check_failure_witness :
  option_map fst
    (TeamCityClient.wait_for_build_completion (scripted [] refused) defaults 1
       (TeamCityClient.__init__ (scripted [] refused) defaults) "7" None
       genesis)
  = Some (Raise (RequestException "Connection refused"),
          [Check 0; Eval (Raise (RequestException "Connection refused"))]).
Proof.
  rewrite (proj1 (build_wait_check_failure (scripted [] refused) defaults
                    (TeamCityClient.__init__ (scripted [] refused) defaults)
                    "7" None genesis _ O eq_refl)
             (RequestException "Connection refused") eq_refl).
  reflexivity.
Defined.

(** ** Test data *)
Section TestData.
Variable E : env.
Variable settings : Settings.t.

(** X10.  The project payload the helpers generate is not one the
    validator accepts, for want of a [versionedSettingsConfig]; it is
    accepted once that key is set, to any value. *)
Theorem generated_project_needs_config (project_id : string) (config : json) :
  TestHelpers.validate_kotlin_dsl_structure
    (TestHelpers.generate_test_project_data project_id) = false /\
  TestHelpers.validate_kotlin_dsl_structure
    (dict_set "versionedSettingsConfig" config
       (TestHelpers.generate_test_project_data project_id)) = true.
Proof.
  split; reflexivity.
Qed.
End TestData.

(** ** The scenario predicates on an answered request *)
Section Predicates.
Variable E : env.
Variable settings : Settings.t.
Variable self : TeamCityClient.t.

Hypothesis budget : 1 <= Settings.MAX_RETRIES settings.

(** A first attempt that succeeds is the whole call. *)
Lemma make_request_answered (method endpoint : string)
    (kw : TeamCityClient.kwargs) (w : world) (r : response) :
  attempt_outcome E (length (sent w)) (request_of self method endpoint kw)
    = Ret r ->
  TeamCityClient._make_request E settings self method endpoint kw w
  = (Ret (Some r), after_request E (request_of self method endpoint kw) w).
Proof.
  intros Hr. unfold TeamCityClient._make_request.
  rewrite range_cons by exact budget.
  rewrite attempts_cons, Hr. reflexivity.
Qed.

Lemma project_ready_outcome (id : string) (w : world) (r : response)
    (fields : list (string * json)) :
  let q := request_of self "GET" ("/projects/" +++ id) None in
  attempt_outcome E (length (sent w)) q = Ret r ->
  content r = Some (JObj fields) ->
  TestDslImport.project_ready E settings self id w
  = (Ret (eq_str (or_default (assoc "id" fields) JNull) id),
     after_request E q w).
Proof.
  intros q Hr Hbody.
  unfold TestDslImport.project_ready, TestDslImport.guarded, try_except,
    TeamCityClient.get_project.
  unfold bind at 1 2. rewrite (make_request_answered _ _ _ _ _ Hr).
  cbn [response_json]. rewrite Hbody. reflexivity.
Qed.

(** X11.  When the server answers the request of [project_ready] with a
    JSON object, the predicate is the comparison of that object's [id]
    with the awaited id, and has cost one request; so a server that
    hands back the payload the helpers generate for that id makes it
    true. *)
Theorem project_ready_on_answer (id : string) (w : world) (r : response)
    (fields : list (string * json)) :
  let q := request_of self "GET" ("/projects/" +++ id) None in
  attempt_outcome E (length (sent w)) q = Ret r ->
  content r = Some (JObj fields) ->
  TestDslImport.project_ready E settings self id w
  = (Ret (eq_str (or_default (assoc "id" fields) JNull) id),
     after_request E q w) /\
  (fields = TestHelpers.generate_test_project_data id ->
   fst (TestDslImport.project_ready E settings self id w) = Ret true).
Proof.
  intros q Hr Hbody.
  pose proof (project_ready_outcome id w r fields Hr Hbody) as H.
  split; [exact H | ].
  intros ->. rewrite H. cbn. rewrite String.eqb_refl. reflexivity.
Qed.

Lemma build_config_exists_outcome (id : string) (w : world) (r : response)
    (fields : list (string * json)) :
  let q := request_of self "GET" ("/buildTypes?locator=project:" +++ id) None in
  attempt_outcome E (length (sent w)) q = Ret r ->
  content r = Some (JObj fields) ->
  TestPipelineExecution.build_config_exists E settings self id w
  = (Ret (match assoc "buildType" fields with
          | Some (JArr (_ :: _)) | Some (JObj (_ :: _))
          | Some (JStr (String _ _)) => true
          | _ => false
          end),
     after_request E q w).
Proof.
  intros q Hr Hbody.
  unfold TestPipelineExecution.build_config_exists, TestDslImport.guarded,
    try_except, TeamCityClient.get_build_configurations.
  unfold bind at 1 2 3. rewrite (make_request_answered _ _ _ _ _ Hr).
  cbn [response_json]. rewrite Hbody. cbn.
  destruct (assoc "buildType" fields) as [[ | | | s | items | fs] | ];
    try reflexivity.
  - destruct s; reflexivity.
  - destruct items; reflexivity.
  - destruct fs; reflexivity.
Qed.

(** X12.  On a successful listing, [build_config_exists] says whether
    the [buildType] list is non-empty; when the listing has no
    [buildType] key, so that [get_build_configurations] returns [None],
    the [TypeError] of [len(None)] is caught and the answer is
    [False]. *)
Theorem build_config_exists_on_answer (id : string) (w : world)
    (r : response) (fields : list (string * json)) :
  let q := request_of self "GET" ("/buildTypes?locator=project:" +++ id) None in
  attempt_outcome E (length (sent w)) q = Ret r ->
  content r = Some (JObj fields) ->
  (assoc "buildType" fields = None ->
   TestPipelineExecution.build_config_exists E settings self id w
   = (Ret false, after_request E q w)) /\
  (forall configs,
      assoc "buildType" fields = Some (JArr configs) ->
      TestPipelineExecution.build_config_exists E settings self id w
      = (Ret (negb (Nat.eqb (length configs) 0)), after_request E q w)).
Proof.
  intros q Hr Hbody.
  pose proof (build_config_exists_outcome id w r fields Hr Hbody) as H.
  split.
  - intros Hnone. rewrite H, Hnone. reflexivity.
  - intros configs Hsome. rewrite H, Hsome. destruct configs; reflexivity.
Qed.

Lemma any_named_build (configs : list json) (w : world) :
  (forall c, In c configs -> exists fields, c = JObj fields) ->
  py_any configs
    (fun config =>
       name <- py_get config "name" JNull ;; ret (eq_str name "Build")) w
  = (Ret (existsb (fun c => eq_str (py_name c) "Build") configs), w).
Proof.
  induction configs as [ | c configs IH]; intros Hobj; [reflexivity | ].
  destruct (Hobj c (or_introl eq_refl)) as [fields ->].
  cbn [py_any existsb]. unfold bind at 1. cbn.
  destruct (eq_str _ "Build"); [reflexivity | ].
  apply IH. intros c' Hin. apply Hobj. right. exact Hin.
Qed.

(** X13.  On a successful listing whose [buildType] is a list of JSON
    objects, [build_configs_ready] says whether one of them has the name
    [Build]. *)
Theorem build_configs_ready_on_answer (id : string) (w : world)
    (r : response) (fields : list (string * json)) (configs : list json) :
  let q := request_of self "GET" ("/buildTypes?locator=project:" +++ id) None in
  attempt_outcome E (length (sent w)) q = Ret r ->
  content r = Some (JObj fields) ->
  assoc "buildType" fields = Some (JArr configs) ->
  (forall c, In c configs -> exists fs, c = JObj fs) ->
  TestDslImport.build_configs_ready E settings self id w
  = (Ret (existsb (fun c => eq_str (py_name c) "Build") configs),
     after_request E q w).
Proof.
  intros q Hr Hbody Hlist Hobj.
  unfold TestDslImport.build_configs_ready, TestDslImport.guarded, try_except,
    TeamCityClient.get_build_configurations.
  unfold bind at 1 2 3. rewrite (make_request_answered _ _ _ _ _ Hr).
  cbn [response_json]. rewrite Hbody. cbn [py_get ret]. rewrite Hlist.
  unfold bind at 1. cbn [py_len ret].
  destruct configs as [ | c configs]; [reflexivity | ].
  replace (0 <? Z.of_nat (length (c :: configs))) with true
    by (symmetry; apply Z.ltb_lt; cbn [length]; lia).
  unfold bind at 1. cbn [py_iter ret].
  rewrite any_named_build by exact Hobj. reflexivity.
Qed.
End Predicates.

Lemma project_ready_on_answer_witness :
  fst (TestDslImport.project_ready
         (scripted [] (ok (JObj (TestHelpers.generate_test_project_data "P1"))))
         defaults
         (TeamCityClient.__init__
            (scripted [] (ok (JObj (TestHelpers.generate_test_project_data "P1"))))
            defaults)
         "P1" genesis)
  = Ret true.
Proof.
  apply (proj2 (project_ready_on_answer
                  (scripted []
                     (ok (JObj (TestHelpers.generate_test_project_data "P1"))))
                  defaults _ ltac:(vm_compute; discriminate) "P1" genesis
                  (mkResponse 200
                     (Some (JObj (TestHelpers.generate_test_project_data "P1"))))
                  (TestHelpers.generate_test_project_data "P1")
                  eq_refl eq_refl)).
  reflexivity.
Defined.

Lemma build_config_exists_on_answer_witness :
  fst (TestPipelineExecution.build_config_exists (scripted [] (ok (JObj [])))
         defaults
         (TeamCityClient.__init__ (scripted [] (ok (JObj []))) defaults)
         "P1" genesis)
  = Ret false.
Proof.
  rewrite (proj1 (build_config_exists_on_answer (scripted [] (ok (JObj [])))
                    defaults _ ltac:(vm_compute; discriminate) "P1" genesis
                    (mkResponse 200 (Some (JObj []))) [] eq_refl eq_refl)
             eq_refl).
  reflexivity.
Defined.

Lemma build_configs_ready_on_answer_witness :
  fst (TestDslImport.build_configs_ready (scripted [] (ok one_build)) defaults
         (TeamCityClient.__init__ (scripted [] (ok one_build)) defaults)
         "P1" genesis)
  = Ret true.
Proof.
  rewrite (build_configs_ready_on_answer (scripted [] (ok one_build)) defaults
             _ ltac:(vm_compute; discriminate) "P1" genesis
             (mkResponse 200 (Some one_build)) _ _ eq_refl eq_refl eq_refl).
  - reflexivity.
  - intros c [<- | [<- | []]]; eexists; reflexivity.
Defined.

(** ** Waiting on a listing that never comes *)
Section WaitOnListing.
Variable E : env.
Variable settings : Settings.t.
Variable self : TeamCityClient.t.
Variable id : string.

Hypothesis budget : 1 <= Settings.MAX_RETRIES settings.

(** Every attempt is answered with a JSON object without [buildType]. *)
Hypothesis unlisted :
  forall n q,
    exists r fields,
      attempt_outcome E n q = Ret r /\
      content r = Some (JObj fields) /\
      assoc "buildType" fields = None.

Let predicate := TestPipelineExecution.build_config_exists E settings self id.

Lemma build_config_exists_false (w : world) : fst (predicate w) = Ret false.
Proof.
  destruct (unlisted (length (sent w))
              (request_of self "GET" ("/buildTypes?locator=project:" +++ id)
                 None)) as (r & fields & Hr & Hbody & Hnone).
  unfold predicate.
  rewrite (build_config_exists_outcome E settings self budget id w r fields
             Hr Hbody), Hnone.
  reflexivity.
Qed.

Lemma build_config_exists_clock : clock_monotone predicate.
Proof.
  apply guarded_clock.
  apply bind_clock.
  - apply bind_clock; [apply make_request_clock | ].
    intros r. apply bind_clock; [apply response_json_clock | ].
    intros body. apply py_get_clock.
  - intros v. apply bind_clock.
    + unfold py_len. destruct v; try apply raise_clock; apply ret_clock.
    + intros n. apply ret_clock.
Qed.

(** X14.  Against a server whose listings have no [buildType] key, a
    wait on [build_config_exists] with a positive poll interval ends at
    the deadline with [TimeoutError]: the [None] that
    [get_build_configurations] returns never shows as a [TypeError], and
    never as success. *)
Theorem wait_on_unlisted_times_out (timeout poll_interval : option Z)
    (error_message : option string) (w : world) :
  let T := or_default timeout (Settings.TIMEOUT settings) in
  0 < or_default poll_interval (Settings.POLL_INTERVAL settings) ->
  forall fuel, (Z.to_nat T < fuel)%nat ->
    exists tr w',
      TestHelpers.wait_for_condition E settings fuel predicate timeout
        poll_interval error_message w
      = Some (Raise (TimeoutError
                       (or_default error_message
                          "Condition not met within timeout")), tr, w') /\
      T <= now w' - now w /\
      forall e, ~ In (Eval (Raise e)) tr.
Proof.
  intros T HP fuel Hfuel.
  set (P := or_default poll_interval (Settings.POLL_INTERVAL settings)) in *.
  set (msg := or_default error_message "Condition not met within timeout").
  assert (Hmeasure : (Z.to_nat (T - (now w - now w)) < fuel)%nat) by lia.
  assert (HP0 : 0 <= P) by lia.
  pose proof build_config_exists_clock as Hclock.
  pose proof (guarded_total _ : total_predicate predicate) as Htotal.
  unfold TestHelpers.wait_for_condition. fold T.
  destruct (loop_terminates E predicate T P msg (now w) fuel HP Hclock w
              Hmeasure) as [[[r tr] w'] Hrun].
  destruct (loop_verdict E predicate T P msg (now w) fuel HP0
              Hclock Htotal w r tr w' Hrun)
    as [(_ & k & _ & Hyes) | (Hr & Hlate & _)].
  - rewrite build_config_exists_false in Hyes. discriminate.
  - exists tr, w'. subst r. split; [exact Hrun | ]. split; [exact Hlate | ].
    exact (loop_no_raised_evaluation E predicate T P msg (now w) fuel Htotal
             w _ tr w' Hrun).
Qed.
End WaitOnListing.

Lemma empty_listing_unlisted :
  forall n q,
    exists r fields,
      attempt_outcome (scripted [] (ok (JObj []))) n q = Ret r /\
      content r = Some (JObj fields) /\
      assoc "buildType" fields = None.
Proof.
  intros n q. exists (mkResponse 200 (Some (JObj []))), [].
  split; [ | split; reflexivity].
  unfold attempt_outcome, scripted. cbn [respond].
  destruct n as [ | n]; reflexivity.
Qed.

Lemma wait_on_unlisted_times_out_witness :
  exists tr w',
    TestHelpers.wait_for_condition (scripted [] (ok (JObj []))) defaults 121
      (TestPipelineExecution.build_config_exists (scripted [] (ok (JObj [])))
         defaults
         (TeamCityClient.__init__ (scripted [] (ok (JObj []))) defaults) "P1")
      (Some 120) None None genesis
    = Some (Raise (TimeoutError "Condition not met within timeout"), tr, w') /\
    120 <= now w' - 0 /\
    forall e, ~ In (Eval (Raise e)) tr.
Proof.
  apply (wait_on_unlisted_times_out (scripted [] (ok (JObj []))) defaults
           (TeamCityClient.__init__ (scripted [] (ok (JObj []))) defaults)
           "P1" ltac:(vm_compute; discriminate) empty_listing_unlisted
           (Some 120) None None genesis eq_refl 121%nat).
  vm_compute. lia.
Defined.

(** ** The cleanup script and the cleanup fixture *)
Section CleanupScript.
Variable E : env.
Variable settings : Settings.t.

Let client := TeamCityClient.__init__ E settings.

Let keep : json -> M bool :=
  fun p => id <- py_getitem p "id" ;; py_startswith id "Test".

Lemma keep_wellformed (p : json) (s : string) (w : world) :
  id_of p = Some s -> keep p w = (Ret (String.prefix "Test" s), w).
Proof.
  unfold id_of, keep. destruct p as [ | | | | | fields]; try discriminate.
  unfold bind, py_getitem.
  destruct (assoc "id" fields) as [[ | | | t | | ] | ]; try discriminate.
  intros H. inversion H; subst. reflexivity.
Qed.

Lemma keep_malformed (p : json) (w : world) :
  id_of p = None -> exists e, keep p w = (Raise e, w).
Proof.
  unfold id_of, keep, bind, py_getitem.
  destruct p as [ | | | | | fields]; try (intros _; eexists; reflexivity).
  destruct (assoc "id" fields) as [[ | | | t | | ] | ];
    try discriminate; intros _; eexists; reflexivity.
Qed.


Lemma comprehension_malformed (ps : list json) (w : world) :
  (exists p, In p ps /\ id_of p = None) ->
  exists e, comprehension ps keep w = (Raise e, w).
Proof.
  induction ps as [ | p ps IH]; intros (p0 & Hin & Hbad); [destruct Hin | ].
  cbn [comprehension]. unfold bind at 1.
  destruct (id_of p) as [s | ] eqn:Hp.
  - rewrite (keep_wellformed p s w Hp). unfold bind at 1.
    destruct Hin as [-> | Hin]; [congruence | ].
    destruct (IH (ex_intro _ p0 (conj Hin Hbad))) as [e He].
    rewrite He. exists e. reflexivity.
  - destruct (keep_malformed p w Hp) as [e He]. rewrite He.
    exists e. reflexivity.
Qed.




Lemma cleanup_returns (w : world) :
  exists b, fst (Cleanup.cleanup_test_projects E settings w) = Ret b.
Proof.
  unfold Cleanup.cleanup_test_projects, try_except.
  match goal with
  | |- exists b, fst (let (r, w1) := ?body w in _) = _ =>
      destruct (body w) as [[b | e] w1]
  end; cbn; eexists; reflexivity.
Qed.

(** X16.  [cleanup_test_projects] never raises.  When the listing fails,
    or lists a project that has no [id] or whose [id] is not a [str], it
    returns [False] and has deleted nothing: the world is as the listing
    left it, even if the other projects listed are test projects. *)
Theorem cleanup_aborts_without_deleting (w : world) :
  (exists b, fst (Cleanup.cleanup_test_projects E settings w) = Ret b) /\
  (forall e w1,
      TeamCityClient.get_projects E settings client w = (Raise e, w1) ->
      Cleanup.cleanup_test_projects E settings w = (Ret false, w1)) /\
  (forall ps w1,
      TeamCityClient.get_projects E settings client w = (Ret (JArr ps), w1) ->
      (exists p, In p ps /\ id_of p = None) ->
      Cleanup.cleanup_test_projects E settings w = (Ret false, w1)).
Proof.
  split; [apply cleanup_returns | split].
  - intros e w1 Hlist.
    unfold Cleanup.cleanup_test_projects, try_except. fold client.
    unfold bind at 1. rewrite Hlist. reflexivity.
  - intros ps w1 Hlist Hbad.
    unfold Cleanup.cleanup_test_projects, try_except. fold client.
    unfold bind at 1. rewrite Hlist.
    unfold bind at 1. cbn [py_iter ret].
    unfold bind at 1. fold keep.
    destruct (comprehension_malformed ps w1 Hbad) as [e He].
    rewrite He. reflexivity.
Qed.

(** X17.  The teardown of the [cleanup_project] fixture calls
    [delete_project] for every registered project, in the order of
    registration, and never raises: a deletion that fails does not keep
    the later ones from being tried. *)
Theorem teardown_deletes_all (teamcity_client : TeamCityClient.t)
    (created_projects : list string) (w : world) :
  Conftest.cleanup_project_teardown E settings teamcity_client
    created_projects w
  = (Ret tt,
     after_deletions E settings teamcity_client created_projects w) /\
  forall project_id,
    after_deletions E settings teamcity_client
      (Conftest.register_project created_projects project_id) w
    = snd (TeamCityClient.delete_project E settings teamcity_client project_id
             (after_deletions E settings teamcity_client created_projects w)).
Proof.
  split.
  - revert w. unfold Conftest.cleanup_project_teardown.
    induction created_projects as [ | id ids IH]; intros w; [reflexivity | ].
    cbn [for_each]. unfold bind at 1, try_except at 1, bind at 1.
    unfold after_deletions. cbn [fold_left].
    destruct (TeamCityClient.delete_project E settings teamcity_client id w)
      as [[b | e] w2]; cbn [snd is_Exception ret]; apply IH.
  - intros project_id. unfold after_deletions, Conftest.register_project.
    rewrite fold_left_app. reflexivity.
Qed.
End CleanupScript.


(** ** The setup script *)
Section SetupScript.
Variable E : env.
Variable settings : Settings.t.

Let q := probe E settings.

Lemma probes_cons (attempt : Z) (todo : list Z) (w : world) :
  SetupEnvironment.probes E settings (attempt :: todo) w =
  match respond E (length (sent w)) q with
  | Answer r =>
      if status_code r =? 200 then (Ret true, after_request E q w)
      else SetupEnvironment.probes E settings todo
             (after_sleep E 10 (after_request E q w))
  | Fault e =>
      if is_RequestException e
      then SetupEnvironment.probes E settings todo
             (after_sleep E 10 (after_request E q w))
      else (Raise e, after_request E q w)
  end.
Proof.
  cbn [SetupEnvironment.probes].
  unfold bind at 1, try_except, bind at 1, SetupEnvironment.requests_get,
    TeamCityClient.session_request.
  change (TeamCityClient.prepare (TeamCityClient.new_session E) "GET"
            (Settings.TEAMCITY_URL settings +++ "/app/rest/server") None)
    with q.
  change (mkWorld _ (q :: sent w) (naps w)) with (after_request E q w).
  destruct (respond E (length (sent w)) q) as [r | e].
  - cbn [ret]. destruct (status_code r =? 200); reflexivity.
  - destruct (is_RequestException e); reflexivity.
Qed.

(** Probes that find the server not ready are each followed by a sleep of
    10. *)
Lemma probes_skip (waiting : list Z) :
  forall (todo : list Z) (w : world),
    (forall j, (j < length waiting)%nat ->
               not_ready E (length (sent w) + j) q = true) ->
    exists wk,
      sent wk = repeat q (length waiting) ++ sent w /\
      naps wk = repeat 10 (length waiting) ++ naps w /\
      now w + 10 * Z.of_nat (length waiting) <= now wk /\
      SetupEnvironment.probes E settings (waiting ++ todo) w
      = SetupEnvironment.probes E settings todo wk.
Proof.
  induction waiting as [ | attempt waiting IH]; intros todo w Hwait.
  - exists w. cbn. repeat split; lia.
  - pose proof (Hwait O ltac:(cbn; lia)) as H0. rewrite Nat.add_0_r in H0.
    destruct (IH todo (after_sleep E 10 (after_request E q w)))
      as (wk & Hs & Hn & Hclock & Hrun).
    { intros j Hj. cbn [after_sleep after_request sent length].
      replace (S (length (sent w)) + j)%nat
        with (length (sent w) + S j)%nat by lia.
      apply Hwait. cbn [length]. lia. }
    exists wk. cbn [after_sleep after_request sent naps now length] in *.
    split.
    { rewrite Hs. change (q :: sent w) with (repeat q 1 ++ sent w).
      rewrite app_assoc, <- repeat_app. f_equal. f_equal. lia. }
    split.
    { rewrite Hn. change (10 :: naps w) with (repeat 10 1 ++ naps w).
      rewrite app_assoc, <- repeat_app. f_equal. f_equal. lia. }
    split; [lia | ].
    rewrite <- app_comm_cons, probes_cons. unfold not_ready in H0.
    destruct (respond E (length (sent w)) q) as [r | e].
    + destruct (status_code r =? 200); [discriminate | exact Hrun].
    + rewrite H0. exact Hrun.
Qed.

Lemma length_range (n : Z) : length (TeamCityClient.range n) = Z.to_nat n.
Proof.
  unfold TeamCityClient.range. rewrite length_map, length_seq. reflexivity.
Qed.

(** X18.  When none of 60 probes in a row finds the server ready (each
    gets a status other than 200 or a [RequestException]),
    [wait_for_teamcity] returns [False] after exactly 60 probes and 60
    sleeps of 10, the last of them after the last probe; [verify_setup]
    then returns [False] too, and has sent nothing but those probes.  A
    probe is a GET of [/app/rest/server] that carries none of the
    client's settings: its only credentials are those the library finds
    by itself for the URL, if any. *)
Theorem wait_for_teamcity_gives_up (w : world) :
  (forall j, (j < 60)%nat -> not_ready E (length (sent w) + j) q = true) ->
  q_method q = "GET" /\
  q_url q = Settings.TEAMCITY_URL settings +++ "/app/rest/server" /\
  q_auth q
    = credentials_for E (Settings.TEAMCITY_URL settings +++ "/app/rest/server")
  /\
  exists w',
    SetupEnvironment.wait_for_teamcity E settings w = (Ret false, w') /\
    SetupEnvironment.verify_setup E settings w = (Ret false, w') /\
    sent w' = repeat q 60 ++ sent w /\
    naps w' = repeat 10 60 ++ naps w /\
    now w + 600 <= now w'.
Proof.
  intros Hwait.
  split; [reflexivity | ]. split; [reflexivity | ]. split; [reflexivity | ].
  destruct (probes_skip (TeamCityClient.range 60) [] w) as
    (wk & Hs & Hn & Hclock & Hrun).
  { rewrite length_range. exact Hwait. }
  rewrite length_range in Hs, Hn, Hclock. rewrite app_nil_r in Hrun.
  exists wk.
  assert (Hfalse : SetupEnvironment.wait_for_teamcity E settings w
                   = (Ret false, wk)).
  { unfold SetupEnvironment.wait_for_teamcity. rewrite Hrun. reflexivity. }
  split; [exact Hfalse | ]. split.
  - unfold SetupEnvironment.verify_setup, bind. rewrite Hfalse. reflexivity.
  - split; [exact Hs | ]. split; [exact Hn | ].
    change (Z.of_nat (Z.to_nat 60)) with 60 in Hclock. lia.
Qed.

(** X19.  [wait_for_teamcity] returns [True] on the first probe answered
    with status 200, whatever [raise_for_status] would make of the
    response: after k probes that found the server not ready, k < 60, it
    has sent k + 1 requests and slept k times. *)
Theorem wait_for_teamcity_ready (k : nat) (w : world) (r : response) :
  (k < 60)%nat ->
  (forall j, (j < k)%nat -> not_ready E (length (sent w) + j) q = true) ->
  respond E (length (sent w) + k) q = Answer r ->
  status_code r = 200 ->
  exists w',
    SetupEnvironment.wait_for_teamcity E settings w = (Ret true, w') /\
    sent w' = repeat q (S k) ++ sent w /\
    naps w' = repeat 10 k ++ naps w.
Proof.
  intros Hk Hwait Hr H200.
  unfold SetupEnvironment.wait_for_teamcity.
  assert (Hsplit : TeamCityClient.range 60
                   = map Z.of_nat (seq 0 k)
                     ++ map Z.of_nat (seq (0 + k) (S (59 - k)))).
  { unfold TeamCityClient.range. rewrite <- map_app, <- seq_app.
    f_equal. f_equal. change (Z.to_nat 60) with 60%nat. lia. }
  rewrite Hsplit.
  destruct (probes_skip (map Z.of_nat (seq 0 k))
              (map Z.of_nat (seq (0 + k) (S (59 - k)))) w)
    as (wk & Hs & Hn & _ & Hrun).
  { rewrite length_map, length_seq. exact Hwait. }
  rewrite length_map, length_seq in Hs, Hn.
  rewrite Hrun. cbn [seq map]. rewrite probes_cons.
  rewrite Hs, length_app, repeat_length, Nat.add_comm, Hr, H200.
  cbn [Z.eqb Pos.eqb]. eexists. split; [reflexivity | ].
  cbn [after_request sent naps]. split; [ | exact Hn].
  rewrite Hs. reflexivity.
Qed.

(** X20.  [verify_setup] returns [True] only when the wait for the
    server and then the authenticated listing have both returned [True]
    and the URL, the username and the password of the configuration are
    all non-empty. *)
Theorem verify_setup_true (w w' : world) :
  SetupEnvironment.verify_setup E settings w = (Ret true, w') ->
  Settings.TEAMCITY_URL settings <> "" /\
  Settings.TEAMCITY_USERNAME settings <> "" /\
  Settings.TEAMCITY_PASSWORD settings <> "" /\
  exists w1,
    SetupEnvironment.wait_for_teamcity E settings w = (Ret true, w1) /\
    SetupEnvironment.setup_admin_user E settings w1 = (Ret true, w').
Proof.
  unfold SetupEnvironment.verify_setup, bind.
  destruct (SetupEnvironment.wait_for_teamcity E settings w)
    as [[[ | ] | e] w1]; cbn [negb]; try discriminate.
  destruct (SetupEnvironment.setup_admin_user E settings w1)
    as [[[ | ] | e] w2] eqn:Hadmin; cbn [negb]; try discriminate.
  cbn [filter]. unfold SetupEnvironment.getattr. cbn [String.eqb Ascii.eqb].
  cbn.
  destruct (String.eqb_spec (Settings.TEAMCITY_URL settings) "");
    [discriminate | ].
  destruct (String.eqb_spec (Settings.TEAMCITY_USERNAME settings) "");
    [discriminate | ].
  destruct (String.eqb_spec (Settings.TEAMCITY_PASSWORD settings) "");
    [discriminate | ].
  intros H. inversion H; subst.
  repeat split; try assumption. exists w1. split; [reflexivity | exact Hadmin].
Qed.
End SetupScript.

Lemma refused_not_ready (settings : Settings.t) (n : nat) (q : request) :
  not_ready (scripted [] refused) n q = true.
Proof. unfold not_ready, scripted. cbn. destruct n; reflexivity. Qed.

Lemma wait_for_teamcity_gives_up_witness :
  q_method (probe (scripted [] refused) defaults) = "GET" /\
  q_url (probe (scripted [] refused) defaults)
    = Settings.TEAMCITY_URL defaults +++ "/app/rest/server" /\
  q_auth (probe (scripted [] refused) defaults)
    = credentials_for (scripted [] refused)
        (Settings.TEAMCITY_URL defaults +++ "/app/rest/server") /\
  exists w',
    SetupEnvironment.wait_for_teamcity (scripted [] refused) defaults genesis
      = (Ret false, w') /\
    SetupEnvironment.verify_setup (scripted [] refused) defaults genesis
      = (Ret false, w') /\
    sent w' = repeat (probe (scripted [] refused) defaults) 60 ++ [] /\
    naps w' = repeat 10 60 ++ [] /\
    0 + 600 <= now w'.
Proof.
  apply (wait_for_teamcity_gives_up (scripted [] refused) defaults genesis).
  intros j _. apply (refused_not_ready defaults).
Defined.

Lemma wait_for_teamcity_ready_witness :
  exists w',
    SetupEnvironment.wait_for_teamcity
      (scripted [refused; server_error; ok JNull] refused) defaults genesis
      = (Ret true, w') /\
    sent w'
      = repeat (probe (scripted [refused; server_error; ok JNull] refused)
                  defaults) 3 ++ [] /\
    naps w' = repeat 10 2 ++ [].
Proof.
  apply (wait_for_teamcity_ready
           (scripted [refused; server_error; ok JNull] refused) defaults
           2 genesis (mkResponse 200 (Some JNull))).
  - lia.
  - intros j Hj. destruct j as [ | [ | j]]; [reflexivity | reflexivity | lia].
  - reflexivity.
  - reflexivity.
Defined.

Lemma verify_setup_true_witness :
  Settings.TEAMCITY_URL defaults <> "" /\
  Settings.TEAMCITY_USERNAME defaults <> "" /\
  Settings.TEAMCITY_PASSWORD defaults <> "".
Proof.
  destruct (verify_setup_true (scripted [] (ok (JObj []))) defaults genesis _
              eq_refl) as (Hu & Hn & Hp & _).
  repeat split; assumption.
Defined.

(** ** The Git helper *)
Section GitHelper.
Variable G : GitOperations.git_env.
Variable settings : Settings.t.

Lemma rmtree_gone (p : string) (m : GitOperations.machine) :
  ~ In p (GitOperations.dirs (GitOperations.rmtree p m)).
Proof.
  unfold GitOperations.rmtree. cbn [GitOperations.dirs].
  intros Hin. apply filter_In in Hin. destruct Hin as [_ Hkeep].
  rewrite String.eqb_refl in Hkeep. discriminate.
Qed.

Lemma path_exists_In (p : string) (m : GitOperations.machine) :
  GitOperations.path_exists p m = true <-> In p (GitOperations.dirs m).
Proof.
  unfold GitOperations.path_exists. rewrite existsb_exists. split.
  - intros (x & Hin & Hx). apply String.eqb_eq in Hx. subst x. exact Hin.
  - intros Hin. exists p. split; [exact Hin | apply String.eqb_refl].
Qed.

(** X21.  A clone that fails leaves the helper without a repository:
    [push_changes] and [get_latest_commit_hash] then raise
    [ValueError("Repository not initialized")] without calling Git and
    without touching the helper or the machine. *)
Theorem failed_clone_leaves_uninitialized (self : GitOperations.t)
    (target_dir : option string) (m : GitOperations.machine) e self' m' :
  GitOperations.repo self = None ->
  GitOperations.clone_repo G self target_dir m
    = (GitOperations.Failed e, self', m') ->
  GitOperations.repo self' = None /\
  (forall branch,
      GitOperations.push_changes G self' branch m'
      = (GitOperations.Failed GitOperations.not_initialized, self', m')) /\
  (forall branch,
      GitOperations.get_latest_commit_hash G self' branch m'
      = (GitOperations.Failed GitOperations.not_initialized, self', m')).
Proof.
  intros Hnone Hclone.
  assert (Hrepo : GitOperations.repo self' = None).
  { unfold GitOperations.clone_repo in Hclone.
    destruct target_dir as [d | ]; [destruct (String.eqb d "") | ];
      cbn in Hclone;
      match type of Hclone with
      | context [GitOperations.git_result G ?n] =>
          destruct (GitOperations.git_result G n)
      end; inversion Hclone; subst; exact Hnone. }
  split; [exact Hrepo | ].
  split; intros branch.
  - unfold GitOperations.push_changes. rewrite Hrepo. reflexivity.
  - unfold GitOperations.get_latest_commit_hash. rewrite Hrepo. reflexivity.
Qed.

(** X22.  After [clone_repo()] without a target directory, [cleanup] (and
    so the end of a [with] block) leaves no trace of the temporary
    directory, whether the clone succeeded or failed; a second [cleanup]
    changes nothing. *)
Theorem cleanup_removes_temp_dir (self : GitOperations.t)
    (m : GitOperations.machine) :
  let p := GitOperations.tmp_name G (GitOperations.made m) in
  p <> "" ->
  forall o self1 m1,
    GitOperations.clone_repo G self None m = (o, self1, m1) ->
    GitOperations.temp_dir self1 = Some p /\
    In p (GitOperations.dirs m1) /\
    ~ In p (GitOperations.dirs (GitOperations.__exit__ self1 m1)) /\
    GitOperations.cleanup self1 (GitOperations.cleanup self1 m1)
    = GitOperations.cleanup self1 m1.
Proof.
  intros p Hp o self1 m1 Hclone.
  assert (Hstate : GitOperations.temp_dir self1 = Some p
                   /\ In p (GitOperations.dirs m1)).
  { unfold GitOperations.clone_repo in Hclone. cbn in Hclone. fold p in Hclone.
    rewrite String.eqb_refl in Hclone. cbn in Hclone.
    destruct (GitOperations.git_result G (GitOperations.git_calls m));
      inversion Hclone; subst; cbn; split; auto. }
  destruct Hstate as [Htemp Hin].
  assert (Hclean : GitOperations.cleanup self1 m1 = GitOperations.rmtree p m1).
  { unfold GitOperations.cleanup. rewrite Htemp.
    destruct (String.eqb_spec p ""); [contradiction | ].
    rewrite (proj2 (path_exists_In p m1) Hin). reflexivity. }
  split; [exact Htemp | ]. split; [exact Hin | ]. split.
  - unfold GitOperations.__exit__. rewrite Hclean. apply rmtree_gone.
  - rewrite Hclean. unfold GitOperations.cleanup at 1. rewrite Htemp.
    destruct (String.eqb_spec p ""); [contradiction | ].
    destruct (GitOperations.path_exists p (GitOperations.rmtree p m1)) eqn:Hex;
      [ | reflexivity].
    apply path_exists_In in Hex. exfalso. exact (rmtree_gone p m1 Hex).
Qed.

(** X23.  A directory the caller supplies is the caller's: when the
    helper has made no temporary directory, [clone_repo(target_dir)]
    makes none either, and [cleanup] removes nothing. *)
Theorem cleanup_keeps_supplied_dir (self : GitOperations.t)
    (target_dir : string) (m : GitOperations.machine) :
  GitOperations.temp_dir self = None ->
  target_dir <> "" ->
  forall o self1 m1,
    GitOperations.clone_repo G self (Some target_dir) m = (o, self1, m1) ->
    GitOperations.temp_dir self1 = None /\
    GitOperations.made m1 = GitOperations.made m /\
    GitOperations.cleanup self1 m1 = m1.
Proof.
  intros Htemp Hd o self1 m1 Hclone.
  unfold GitOperations.clone_repo in Hclone.
  destruct (String.eqb_spec target_dir ""); [contradiction | ].
  destruct (GitOperations.git_result G (GitOperations.git_calls m));
    inversion Hclone; subst; cbn; unfold GitOperations.cleanup; cbn;
    rewrite Htemp; repeat split; reflexivity.
Qed.

(** X24.  The helper remembers one temporary directory only: of two
    [clone_repo()] calls without a target, [cleanup] removes the
    directory of the second and leaves the first in place. *)
Theorem second_clone_leaks_first_temp_dir (self : GitOperations.t)
    (m : GitOperations.machine) :
  let p1 := GitOperations.tmp_name G (GitOperations.made m) in
  let p2 := GitOperations.tmp_name G (S (GitOperations.made m)) in
  p2 <> "" ->
  p1 <> p2 ->
  String.prefix (p2 +++ "/") p1 = false ->
  forall o1 self1 m1 o2 self2 m2,
    GitOperations.clone_repo G self None m = (o1, self1, m1) ->
    GitOperations.clone_repo G self1 None m1 = (o2, self2, m2) ->
    In p1 (GitOperations.dirs (GitOperations.cleanup self2 m2)) /\
    ~ In p2 (GitOperations.dirs (GitOperations.cleanup self2 m2)).
Proof.
  intros p1 p2 Hp2 Hne Hbelow o1 self1 m1 o2 self2 m2 H1 H2.
  assert (Hm1 : GitOperations.made m1 = S (GitOperations.made m)
                /\ In p1 (GitOperations.dirs m1)).
  { unfold GitOperations.clone_repo in H1. cbn in H1. fold p1 in H1.
    rewrite String.eqb_refl in H1. cbn in H1.
    destruct (GitOperations.git_result G (GitOperations.git_calls m));
      inversion H1; subst; cbn; split; auto. }
  destruct Hm1 as [Hmade Hin1].
  assert (Hm2 : GitOperations.temp_dir self2 = Some p2
                /\ In p2 (GitOperations.dirs m2)
                /\ In p1 (GitOperations.dirs m2)).
  { unfold GitOperations.clone_repo in H2. cbn in H2. rewrite Hmade in H2.
    fold p2 in H2. rewrite String.eqb_refl in H2. cbn in H2.
    destruct (GitOperations.git_result G (GitOperations.git_calls m1));
      inversion H2; subst; cbn; repeat split; auto. }
  destruct Hm2 as (Htemp & Hin2 & Hin1').
  assert (Hclean : GitOperations.cleanup self2 m2 = GitOperations.rmtree p2 m2).
  { unfold GitOperations.cleanup. rewrite Htemp.
    destruct (String.eqb_spec p2 ""); [contradiction | ].
    rewrite (proj2 (path_exists_In p2 m2) Hin2). reflexivity. }
  rewrite Hclean. split; [ | apply rmtree_gone].
  unfold GitOperations.rmtree. cbn [GitOperations.dirs].
  apply filter_In. split; [exact Hin1' | ].
  rewrite Hbelow, orb_false_r.
  destruct (String.eqb_spec p1 p2); [contradiction | reflexivity].
Qed.
End GitHelper.

Lemma failed_clone_leaves_uninitialized_witness :
  fst (fst (GitOperations.push_changes flaky_git
              (snd (fst (GitOperations.clone_repo flaky_git
                           (GitOperations.__init__ defaults None) None bare)))
              "main"
              (snd (GitOperations.clone_repo flaky_git
                      (GitOperations.__init__ defaults None) None bare))))
  = GitOperations.Failed GitOperations.not_initialized.
Proof.
  destruct (failed_clone_leaves_uninitialized flaky_git
              (GitOperations.__init__ defaults None) None bare _ _ _
              eq_refl eq_refl) as (_ & Hpush & _).
  rewrite Hpush. reflexivity.
Defined.

Lemma cleanup_removes_temp_dir_witness :
  ~ In "/tmp/tmp0"
      (GitOperations.dirs
         (GitOperations.__exit__
            (snd (fst (GitOperations.clone_repo flaky_git
                         (GitOperations.__init__ defaults None) None bare)))
            (snd (GitOperations.clone_repo flaky_git
                    (GitOperations.__init__ defaults None) None bare)))).
Proof.
  destruct (cleanup_removes_temp_dir flaky_git
              (GitOperations.__init__ defaults None) bare
              ltac:(vm_compute; discriminate) _ _ _ eq_refl)
    as (_ & _ & Hgone & _).
  exact Hgone.
Defined.

Lemma cleanup_keeps_supplied_dir_witness :
  GitOperations.cleanup
    (snd (fst (GitOperations.clone_repo flaky_git
                 (GitOperations.__init__ defaults None) (Some "/work/repo")
                 bare)))
    (snd (GitOperations.clone_repo flaky_git
            (GitOperations.__init__ defaults None) (Some "/work/repo") bare))
  = snd (GitOperations.clone_repo flaky_git
           (GitOperations.__init__ defaults None) (Some "/work/repo") bare).
Proof.
  destruct (cleanup_keeps_supplied_dir flaky_git
              (GitOperations.__init__ defaults None) "/work/repo" bare
              eq_refl ltac:(discriminate) _ _ _ eq_refl) as (_ & _ & H).
  exact H.
Defined.

Lemma second_clone_leaks_first_temp_dir_witness :
  exists m3,
    m3 = GitOperations.cleanup
           (snd (fst (GitOperations.clone_repo flaky_git
                        (snd (fst (GitOperations.clone_repo flaky_git
                                     (GitOperations.__init__ defaults None)
                                     None bare)))
                        None
                        (snd (GitOperations.clone_repo flaky_git
                                (GitOperations.__init__ defaults None) None
                                bare)))))
           (snd (GitOperations.clone_repo flaky_git
                   (snd (fst (GitOperations.clone_repo flaky_git
                                (GitOperations.__init__ defaults None)
                                None bare)))
                   None
                   (snd (GitOperations.clone_repo flaky_git
                           (GitOperations.__init__ defaults None) None
                           bare)))) /\
    In "/tmp/tmp0" (GitOperations.dirs m3) /\
    ~ In "/tmp/tmp1" (GitOperations.dirs m3).
Proof.
  eexists. split; [reflexivity | ].
  apply (second_clone_leaks_first_temp_dir flaky_git
           (GitOperations.__init__ defaults None) bare
           ltac:(vm_compute; discriminate) ltac:(vm_compute; discriminate)
           eq_refl _ _ _ _ _ _ eq_refl eq_refl).
Defined.

(** ** Payloads there and back *)
Section RoundTrip.
Variable E : env.
Variable settings : Settings.t.
Variable self : TeamCityClient.t.

Hypothesis budget : 1 <= Settings.MAX_RETRIES settings.

Lemma posted_and_decoded (method endpoint : string) (data : json)
    (w : world) (r : response) (k : option response -> M json) :
  attempt_outcome E (length (sent w))
    (request_of self method endpoint (Some data)) = Ret r ->
  (response <- TeamCityClient._make_request E settings self method endpoint
                 (Some data) ;; k response) w
  = k (Some r) (after_request E (request_of self method endpoint (Some data)) w).
Proof.
  intros Hr. unfold bind.
  rewrite (make_request_answered E settings self budget _ _ _ _ _ Hr).
  reflexivity.
Qed.

(** X25.  The wrappers that post a payload pass it on as it is and hand
    back the decoded answer as it is: against a server that answers a
    request with the JSON it was sent, [create_project],
    [create_vcs_root] and [enable_versioned_settings] return the very
    payload they were given, after one request. *)
Theorem posted_payload_round_trip (w : world) :
  (forall n q, q_json q <> None ->
               attempt_outcome E n q = Ret (mkResponse 200 (q_json q))) ->
  (forall data,
      fst (TeamCityClient.create_project E settings self data w) = Ret data) /\
  (forall data,
      fst (TeamCityClient.create_vcs_root E settings self data w) = Ret data) /\
  (forall id data,
      fst (TeamCityClient.enable_versioned_settings E settings self id data w)
      = Ret data).
Proof.
  intros Hecho.
  assert (Hanswer : forall method endpoint data,
             attempt_outcome E (length (sent w))
               (request_of self method endpoint (Some data))
             = Ret (mkResponse 200 (Some data))).
  { intros method endpoint data.
    apply (Hecho _ (request_of self method endpoint (Some data))).
    cbn. discriminate. }
  split; [ | split]; intros.
  - unfold TeamCityClient.create_project.
    rewrite (posted_and_decoded "POST" "/projects" data w _ _
               (Hanswer _ _ _)).
    reflexivity.
  - unfold TeamCityClient.create_vcs_root.
    rewrite (posted_and_decoded "POST" "/vcs-roots" data w _ _
               (Hanswer _ _ _)).
    reflexivity.
  - unfold TeamCityClient.enable_versioned_settings.
    rewrite (posted_and_decoded "PUT" _ data w _ _ (Hanswer _ _ _)).
    reflexivity.
Qed.

Lemma sync_completed_outcome (id : string) (w : world) (r : response)
    (fields : list (string * json)) :
  let q := request_of self "GET"
             ("/projects/id:" +++ id +++ "/versionedSettings/status") None in
  attempt_outcome E (length (sent w)) q = Ret r ->
  content r = Some (JObj fields) ->
  TestSynchronization.sync_completed E settings self id w
  = (Ret (match assoc "enabled" fields with
          | Some (JBool true) => true
          | _ => false
          end),
     after_request E q w).
Proof.
  intros q Hr Hbody.
  unfold TestSynchronization.sync_completed, TestDslImport.guarded, try_except,
    TeamCityClient.get_versioned_settings.
  unfold bind at 1 2. rewrite (make_request_answered _ _ _ budget _ _ _ _ _ Hr).
  cbn [response_json]. rewrite Hbody. cbn.
  destruct (assoc "enabled" fields) as [[ | [ | ] | | | | ] | ]; reflexivity.
Qed.

(** X26.  On an answered status request, [sync_completed] is true for
    the boolean [true] under [enabled] and for nothing else: not for a
    missing key, nor for the string ["true"] or the number 1. *)
Theorem sync_completed_on_answer (id : string) (w : world) (r : response)
    (fields : list (string * json)) :
  let q := request_of self "GET"
             ("/projects/id:" +++ id +++ "/versionedSettings/status") None in
  attempt_outcome E (length (sent w)) q = Ret r ->
  content r = Some (JObj fields) ->
  (fst (TestSynchronization.sync_completed E settings self id w) = Ret true
   <-> assoc "enabled" fields = Some (JBool true)) /\
  (assoc "enabled" fields <> Some (JBool true) ->
   fst (TestSynchronization.sync_completed E settings self id w) = Ret false).
Proof.
  intros q Hr Hbody.
  rewrite (sync_completed_outcome id w r fields Hr Hbody). cbn [fst].
  destruct (assoc "enabled" fields) as [[ | [ | ] | | | | ] | ];
    split; try (split; congruence); try congruence; try reflexivity.
  all: intros; reflexivity.
Qed.
End RoundTrip.

Lemma echo_answers (n : nat) (q : request) :
  q_json q <> None ->
  attempt_outcome echo_E n q = Ret (mkResponse 200 (q_json q)).
Proof.
  intros Hq. unfold attempt_outcome, echo_E. cbn [respond status_error].
  destruct (q_json q) as [body | ]; [reflexivity | contradiction].
Qed.

Lemma posted_payload_round_trip_witness :
  fst (TeamCityClient.create_vcs_root echo_E defaults
         (TeamCityClient.__init__ echo_E defaults)
         (JObj (TestHelpers.generate_vcs_root_data defaults "P1"
                  "https://example.org/repo.git"))
         genesis)
  = Ret (JObj (TestHelpers.generate_vcs_root_data defaults "P1"
                 "https://example.org/repo.git")).
Proof.
  apply (proj1 (proj2 (posted_payload_round_trip echo_E defaults
                         (TeamCityClient.__init__ echo_E defaults)
                         ltac:(vm_compute; discriminate) genesis
                         echo_answers))).
Defined.

Lemma sync_completed_on_answer_witness :
  fst (TestSynchronization.sync_completed
         (scripted [] (ok (JObj [("enabled", JStr "true")]))) defaults
         (TeamCityClient.__init__
            (scripted [] (ok (JObj [("enabled", JStr "true")]))) defaults)
         "P1" genesis)
  = Ret false.
Proof.
  apply (proj2 (sync_completed_on_answer
                  (scripted [] (ok (JObj [("enabled", JStr "true")])))
                  defaults _ ltac:(vm_compute; discriminate) "P1" genesis
                  (mkResponse 200 (Some (JObj [("enabled", JStr "true")])))
                  [("enabled", JStr "true")] eq_refl eq_refl)).
  discriminate.
Defined.

(** X27.  The cleanup script ends with status 0 or 1 and never with a
    traceback: 0 exactly when [cleanup_test_projects] returned [True]. *)
Theorem cleanup_exit_status (E : env) (settings : Settings.t) (w : world) :
  exists code,
    fst (Cleanup.main E settings w) = Ret code /\
    (code = 0 \/ code = 1) /\
    (code = 0 <->
     fst (Cleanup.cleanup_test_projects E settings w) = Ret true).
Proof.
  unfold Cleanup.main, bind.
  destruct (cleanup_returns E settings w) as [b Hb].
  destruct (Cleanup.cleanup_test_projects E settings w) as [[[ | ] | e] w1];
    cbn [fst] in *; try discriminate.
  - exists 0. cbn. split; [reflexivity | ]. split; [left; reflexivity | tauto].
  - exists 1. cbn. split; [reflexivity | ]. split; [right; reflexivity | ].
    split; intros H; discriminate H.
Qed.
